(** * SVO frame handler base: lifecycle harness

    A shallow embedding of [svo/frame_handler_base.cpp] (namespace [svo],
    class [FrameHandlerBase]) together with the properties of its stage
    machine, quality gate, failure recovery and structure optimizer.

    The member functions mutate the handler object and call into external
    collaborators (the map, the diagnostics macros, [Point::optimize]).  They
    are embedded as computations in a small state-and-trace monad: the state
    is the handler object, the trace is the ordered list of calls made on the
    collaborators. *)

From Stdlib Require Import ZArith String Lia.
From stdpp Require Import base option list sorting gmap.

(** ** Machine integers

    [size_t] is the unsigned 64-bit type of the LP64 targets, [int] is a
    32-bit two's complement integer.  Values are carried as [Z]; the
    conversions the C++ code performs are written out.  The only mixed
    expression of the file ends in an [int], so its value is the same for
    any width of [size_t] that is a multiple of 32 (see
    [feature_drop_wrap]). *)
Module Int.
Local Open Scope Z_scope.

Definition size_t_bits : Z := 64.
Definition int_bits : Z := 32.

(** Conversion to [size_t]: reduction modulo [2^64]. *)
Definition to_size_t (z : Z) : Z := z mod 2 ^ size_t_bits.

(** Conversion to [int] ([static_cast<int>] and the initialisation of an
    [int] from a wider value): reduction to [[-2^31, 2^31)]. *)
Definition to_int (z : Z) : Z :=
  (z + 2 ^ (int_bits - 1)) mod 2 ^ int_bits - 2 ^ (int_bits - 1).

Definition size_t_range (z : Z) : Prop := 0 <= z < 2 ^ size_t_bits.
End Int.

(** ** Enumerations of [frame_handler_base.h] *)

(** Modelled from the spec: the header declaring [enum Stage] is not part of
    the sources at hand; the enumerators are the four operating stages the
    specification lists, under the names the implementation file uses. *)
Inductive Stage : Set :=
  | STAGE_PAUSED
  | STAGE_FIRST_FRAME
  | STAGE_DEFAULT_FRAME
  | STAGE_RELOCALIZING.

(** Modelled from the spec: [enum TrackingQuality] (Good or Insufficient). *)
Inductive TrackingQuality : Set :=
  | TRACKING_INSUFFICIENT
  | TRACKING_GOOD.

(** Modelled from the spec: [enum UpdateResult] (Normal, Keyframe or
    Failure); the implementation file only names [RESULT_FAILURE]. *)
Inductive UpdateResult : Set :=
  | RESULT_NORMAL
  | RESULT_KEYFRAME
  | RESULT_FAILURE.

#[global] Instance Stage_eq_dec : EqDecision Stage.
Proof. solve_decision. Defined.
#[global] Instance TrackingQuality_eq_dec : EqDecision TrackingQuality.
Proof. solve_decision. Defined.
#[global] Instance UpdateResult_eq_dec : EqDecision UpdateResult.
Proof. solve_decision. Defined.

(** A [double]: only its bit pattern is carried, the harness never inspects
    the timestamp, it forwards it to the trace log. *)
Record double : Set := mk_double { double_bits : Z }.

(** Points live on the heap and are referred to by address. *)
Abbreviation PointPtr := nat.

(** ** The map (external collaborator) *)
Module Map.

(** Modelled from the spec: class [Map] ([svo/map.h]) is not part of the
    sources at hand.  It owns the live points, the lock-guarded collection
    of candidate points and the deferred-deletion queue (the trash). *)
Record t : Set := mk {
  points : list PointPtr;
  candidates : list PointPtr;
  trash : list PointPtr
}.

(** Modelled from the spec: [reset()] drops all points and candidates. *)
Definition reset (m : t) : t :=
  {| points := []; candidates := []; trash := trash m |}.

(** Modelled from the spec: [emptyTrash()] drains the deferred deletions. *)
Definition emptyTrash (m : t) : t :=
  {| points := points m; candidates := candidates m; trash := [] |}.

End Map.

(** ** Configuration (external collaborator)

    Modelled from the spec: [svo/config.h] is not part of the sources at
    hand.  The three accessors are pure reads of process-wide thresholds.
    [qualityMinFts] is printed with [%zu] and compared with a [size_t];
    [maxFts] is an argument of [std::min] together with [num_obs_last_], so
    both are [size_t]; [qualityMaxFtsDrop] is compared with an [int]. *)
Record Config : Set := mkConfig {
  qualityMinFts : Z;
  maxFts : Z;
  qualityMaxFtsDrop : Z
}.

(** ** Calls on the collaborators, in program order *)
Inductive Event : Set :=
  | EvMapReset                         (* map_.reset() *)
  | EvMapEmptyTrash                    (* map_.emptyTrash() *)
  | EvDiag (macro : string)            (* SVO_LOG, SVO_*_STREAM, timers *)
  | EvOptimize (p : PointPtr) (max_iter : Z).  (* p->optimize(max_iter) *)

#[global] Instance Event_eq_dec : EqDecision Event.
Proof. solve_decision. Defined.

Definition is_emptyTrash (e : Event) : bool :=
  match e with EvMapEmptyTrash => true | _ => false end.
Definition is_mapReset (e : Event) : bool :=
  match e with EvMapReset => true | _ => false end.

(** Number of events of a trace that satisfy [f]. *)
Definition count_events (f : Event -> bool) (tr : list Event) : nat :=
  length (List.filter f tr).

(** ** The handler object *)
Record FrameHandlerBase : Set := mkFrameHandlerBase {
  stage_ : Stage;
  set_reset_ : bool;
  set_start_ : bool;
  num_obs_last_ : Z;
  tracking_quality_ : TrackingQuality;
  map_ : Map.t
}.

(** [FrameHandlerBase::FrameHandlerBase()]: the member initialisers. *)
Definition FrameHandlerBase_init (m : Map.t) : FrameHandlerBase :=
  {| stage_ := STAGE_PAUSED;
     set_reset_ := false;
     set_start_ := false;
     num_obs_last_ := 0;
     tracking_quality_ := TRACKING_INSUFFICIENT;
     map_ := m |}.

(** ** State-and-trace monad for member functions *)
Module FH.

Definition M (A : Type) : Type :=
  FrameHandlerBase -> A * FrameHandlerBase * list Event.

Definition ret {A} (a : A) : M A := fun s => (a, s, []).

Definition bind {A B} (m : M A) (f : A -> M B) : M B :=
  fun s =>
    let '(a, s1, t1) := m s in
    let '(b, s2, t2) := f a s1 in
    (b, s2, t1 ++ t2).

Definition get : M FrameHandlerBase := fun s => (s, s, []).
Definition modify (f : FrameHandlerBase -> FrameHandlerBase) : M unit :=
  fun s => (tt, f s, []).
Definition emit (e : Event) : M unit := fun s => (tt, s, [e]).

(** Projections of a finished computation. *)
Definition result {A} (r : A * FrameHandlerBase * list Event) : A := r.1.1.
Definition state {A} (r : A * FrameHandlerBase * list Event)
  : FrameHandlerBase := r.1.2.
Definition trace {A} (r : A * FrameHandlerBase * list Event)
  : list Event := r.2.

End FH.

Declare Scope fh_scope.
Delimit Scope fh_scope with fh.
Notation "x <- m ; k" := (FH.bind m (fun x => k))
  (at level 100, m at next level, right associativity) : fh_scope.
Notation "m ;; k" := (FH.bind m (fun _ => k))
  (at level 100, right associativity) : fh_scope.
Notation "'when' b 'then' m" := (if b then m else FH.ret tt)
  (at level 99, b at level 9) : fh_scope.

(** Field assignments. *)
Definition set_stage (v : Stage) (s : FrameHandlerBase) : FrameHandlerBase :=
  {| stage_ := v; set_reset_ := set_reset_ s; set_start_ := set_start_ s;
     num_obs_last_ := num_obs_last_ s;
     tracking_quality_ := tracking_quality_ s; map_ := map_ s |}.
Definition set_set_reset (v : bool) (s : FrameHandlerBase) : FrameHandlerBase :=
  {| stage_ := stage_ s; set_reset_ := v; set_start_ := set_start_ s;
     num_obs_last_ := num_obs_last_ s;
     tracking_quality_ := tracking_quality_ s; map_ := map_ s |}.
Definition set_set_start (v : bool) (s : FrameHandlerBase) : FrameHandlerBase :=
  {| stage_ := stage_ s; set_reset_ := set_reset_ s; set_start_ := v;
     num_obs_last_ := num_obs_last_ s;
     tracking_quality_ := tracking_quality_ s; map_ := map_ s |}.
Definition set_num_obs_last (v : Z) (s : FrameHandlerBase) : FrameHandlerBase :=
  {| stage_ := stage_ s; set_reset_ := set_reset_ s; set_start_ := set_start_ s;
     num_obs_last_ := v;
     tracking_quality_ := tracking_quality_ s; map_ := map_ s |}.
Definition set_tracking_quality (v : TrackingQuality) (s : FrameHandlerBase)
  : FrameHandlerBase :=
  {| stage_ := stage_ s; set_reset_ := set_reset_ s; set_start_ := set_start_ s;
     num_obs_last_ := num_obs_last_ s;
     tracking_quality_ := v; map_ := map_ s |}.
Definition set_map (v : Map.t) (s : FrameHandlerBase) : FrameHandlerBase :=
  {| stage_ := stage_ s; set_reset_ := set_reset_ s; set_start_ := set_start_ s;
     num_obs_last_ := num_obs_last_ s;
     tracking_quality_ := tracking_quality_ s; map_ := v |}.

(** Calls on the member [map_]. *)
Definition map_reset : FH.M unit :=
  (FH.modify (fun s => set_map (Map.reset (map_ s)) s) ;;
   FH.emit EvMapReset)%fh.
Definition map_emptyTrash : FH.M unit :=
  (FH.modify (fun s => set_map (Map.emptyTrash (map_ s)) s) ;;
   FH.emit EvMapEmptyTrash)%fh.

Section Controller.
Local Open Scope fh_scope.
Local Open Scope string_scope.

(** [void FrameHandlerBase::resetCommon()] *)
Definition resetCommon : FH.M unit :=
  map_reset ;;
  FH.modify (set_stage STAGE_PAUSED) ;;
  FH.modify (set_set_reset false) ;;
  FH.modify (set_set_start false) ;;
  FH.modify (set_tracking_quality TRACKING_INSUFFICIENT) ;;
  FH.modify (set_num_obs_last 0) ;;
  FH.emit (EvDiag "SVO_INFO_STREAM RESET").

(** Modelled from the spec: [resetAll()] is declared in the header, which
    is not part of the sources at hand; it performs the full reset, that
    is, it runs [resetCommon]. *)
Definition resetAll : FH.M unit := resetCommon.

(** Modelled from the spec: the request operations of the header
    ([reset()] and [start()]) set the corresponding flag. *)
Definition reset : FH.M unit := FH.modify (set_set_reset true).
Definition start : FH.M unit := FH.modify (set_set_start true).

(** Head of [startFrameProcessingCommon]: a pending start request. *)
Definition apply_pending_start : FH.M unit :=
  s <- FH.get ;
  when (set_start_ s) then
    (resetAll ;;
     FH.modify (set_stage STAGE_FIRST_FRAME)).

(** [bool FrameHandlerBase::startFrameProcessingCommon(const double timestamp)] *)
Definition startFrameProcessingCommon (timestamp : double) : FH.M bool :=
  apply_pending_start ;;
  s <- FH.get ;
  if decide (stage_ s = STAGE_PAUSED) then FH.ret false
  else
    FH.emit (EvDiag "SVO_LOG timestamp") ;;
    FH.emit (EvDiag "SVO_DEBUG_STREAM New Frame") ;;
    FH.emit (EvDiag "SVO_START_TIMER tot_time") ;;
    map_emptyTrash ;;
    FH.ret true.

(** [int FrameHandlerBase::finishFrameProcessingCommon(update_id, dropout,
    num_observations)], built without [SVO_TRACE]. *)
Definition finishFrameProcessingCommon
    (update_id : Z) (dropout : UpdateResult) (num_observations : Z)
  : FH.M Z :=
  FH.emit (EvDiag "SVO_LOG dropout") ;;
  FH.modify (set_num_obs_last num_observations) ;;
  FH.emit (EvDiag "SVO_STOP_TIMER tot_time") ;;
  s <- FH.get ;
  (if bool_decide (dropout = RESULT_FAILURE)
      && (bool_decide (stage_ s = STAGE_DEFAULT_FRAME)
          || bool_decide (stage_ s = STAGE_RELOCALIZING))
   then
     FH.modify (set_stage STAGE_RELOCALIZING) ;;
     FH.modify (set_tracking_quality TRACKING_INSUFFICIENT)
   else if bool_decide (dropout = RESULT_FAILURE) then
     resetAll ;;
     FH.modify (set_set_start true)
   else FH.ret tt) ;;
  s <- FH.get ;
  (when (set_reset_ s) then resetAll) ;;
  FH.ret 0%Z.

(** The [int feature_drop] of [setTrackingQuality]:
    [static_cast<int>(std::min(num_obs_last_, Config::maxFts())) -
     num_observations], the subtraction being done in [size_t] and the
    result converted back to [int]. *)
Definition feature_drop (cfg : Config) (num_obs_last num_observations : Z)
  : Z :=
  let m := Int.to_int (Z.min num_obs_last (maxFts cfg)) in
  Int.to_int (Int.to_size_t (Int.to_size_t m - num_observations)).

(** [void FrameHandlerBase::setTrackingQuality(const size_t num_observations)] *)
Definition setTrackingQuality (cfg : Config) (num_observations : Z)
  : FH.M unit :=
  FH.modify (set_tracking_quality TRACKING_GOOD) ;;
  (when (num_observations <? qualityMinFts cfg)%Z then
     (FH.emit (EvDiag "SVO_WARN_STREAM_THROTTLE Tracking less than %zu features!") ;;
      FH.modify (set_tracking_quality TRACKING_INSUFFICIENT))) ;;
  s <- FH.get ;
  let feature_drop := feature_drop cfg (num_obs_last_ s) num_observations in
  when (feature_drop >? qualityMaxFtsDrop cfg)%Z then
    (FH.emit (EvDiag "SVO_WARN_STREAM Lost %d features!") ;;
     FH.modify (set_tracking_quality TRACKING_INSUFFICIENT)).

End Controller.

(** ** Call sequences on the controller *)

(** One call of a public operation of the controller. *)
Inductive Call : Set :=
  | CallStartFrameProcessing (timestamp : double)
  | CallFinishFrameProcessing
      (update_id : Z) (dropout : UpdateResult) (num_observations : Z)
  | CallResetAll
  | CallRequestReset
  | CallRequestStart
  | CallSetTrackingQuality (num_observations : Z).

(** The handler object after one call. *)
Definition exec (cfg : Config) (c : Call) (s : FrameHandlerBase)
  : FrameHandlerBase :=
  match c with
  | CallStartFrameProcessing ts =>
      FH.state (startFrameProcessingCommon ts s)
  | CallFinishFrameProcessing u r n =>
      FH.state (finishFrameProcessingCommon u r n s)
  | CallResetAll => FH.state (resetAll s)
  | CallRequestReset => FH.state (reset s)
  | CallRequestStart => FH.state (start s)
  | CallSetTrackingQuality n => FH.state (setTrackingQuality cfg n s)
  end.

(** The handler object after a sequence of calls. *)
Definition exec_all (cfg : Config) (cs : list Call) (s : FrameHandlerBase)
  : FrameHandlerBase :=
  foldl (fun st c => exec cfg c st) s cs.

(** [moves_ok R cfg s cs]: along the run of [cs] from [s], every call
    relates the stage observed before it to the stage observed after it
    by [R]. *)
Fixpoint moves_ok
    (R : FrameHandlerBase -> Call -> Stage -> Stage -> Prop)
    (cfg : Config) (s : FrameHandlerBase) (cs : list Call) : Prop :=
  match cs with
  | [] => True
  | c :: cs' =>
      R s c (stage_ s) (stage_ (exec cfg c s))
      /\ moves_ok R cfg (exec cfg c s) cs'
  end.

(** The stage moves the specification allows (its transition closure), read
    off its wording: Paused to FirstFrame, a non-paused stage to
    Relocalizing, any stage to Paused. *)
Definition spec_stage_move (a b : Stage) : Prop :=
  (a = STAGE_PAUSED /\ b = STAGE_FIRST_FRAME)
  \/ ((a = STAGE_FIRST_FRAME \/ a = STAGE_DEFAULT_FRAME
       \/ a = STAGE_RELOCALIZING) /\ b = STAGE_RELOCALIZING)
  \/ b = STAGE_PAUSED.

Definition spec_closure (s : FrameHandlerBase) (c : Call) (a b : Stage)
  : Prop :=
  a = b \/ spec_stage_move a b.

(** The stage moves of the implementation, each with the call and the
    condition that causes it. *)
Inductive stage_move (s : FrameHandlerBase) (c : Call)
  : Stage -> Stage -> Prop :=
  | move_none a :
      stage_move s c a a
  | move_start a ts :
      c = CallStartFrameProcessing ts ->
      set_start_ s = true ->
      stage_move s c a STAGE_FIRST_FRAME
  | move_soft_failure a u n :
      c = CallFinishFrameProcessing u RESULT_FAILURE n ->
      a = STAGE_DEFAULT_FRAME \/ a = STAGE_RELOCALIZING ->
      set_reset_ s = false ->
      stage_move s c a STAGE_RELOCALIZING
  | move_resetAll a :
      c = CallResetAll ->
      stage_move s c a STAGE_PAUSED
  | move_hard_failure a u n :
      c = CallFinishFrameProcessing u RESULT_FAILURE n ->
      a <> STAGE_DEFAULT_FRAME -> a <> STAGE_RELOCALIZING ->
      stage_move s c a STAGE_PAUSED
  | move_pending_reset a u r n :
      c = CallFinishFrameProcessing u r n ->
      set_reset_ s = true ->
      stage_move s c a STAGE_PAUSED.

(** The quality the specification assigns, read off its wording, with the
    drop taken as the exact difference. *)
Definition spec_quality (cfg : Config) (num_obs_last num_observations : Z)
  : TrackingQuality :=
  if (num_observations <? qualityMinFts cfg)%Z then TRACKING_INSUFFICIENT
  else if (Z.min num_obs_last (maxFts cfg) - num_observations
           >? qualityMaxFtsDrop cfg)%Z
       then TRACKING_INSUFFICIENT
       else TRACKING_GOOD.

(** Whether [finishFrameProcessingCommon] runs a full reset: on a failure
    outside the tracking stages, or on a pending reset request. *)
Definition finish_resets (s : FrameHandlerBase) (dropout : UpdateResult)
  : bool :=
  (bool_decide (dropout = RESULT_FAILURE)
   && negb (bool_decide (stage_ s = STAGE_DEFAULT_FRAME)
            || bool_decide (stage_ s = STAGE_RELOCALIZING)))
  || set_reset_ s.

(** ** Points, features and frames *)

(** [Feature]: the observation of a point in a frame; [point] is the
    pointer member, [None] standing for [NULL]. *)
Record Feature : Set := mkFeature { point : option PointPtr }.

(** [Frame]: its identifier and its features, in insertion order. *)
Record Frame : Set := mkFrame { id_ : Z; fts_ : list Feature }.

Section Structure.

(** The refinable state of a point (its position); opaque here. *)
Variable Pos : Type.

Record Point : Type := mkPoint {
  pos_ : Pos;
  last_structure_optim_ : Z
}.

(** Modelled from the spec: [Point::optimize(max_iter)] is defined outside
    the sources at hand; it is a bounded refinement that touches only the
    state of its own point.  Any function of the point is admitted. *)
Variable Point_optimize : Z -> Point -> Point.

(** [std::nth_element] on a sequence of pointers, the position [nth] given
    as an offset from the beginning. *)
Variable nth_element :
  (PointPtr -> PointPtr -> bool) -> nat -> list PointPtr -> list PointPtr.

(** The key the comparator reads through a pointer. *)
Definition mark (h : gmap nat Point) (p : PointPtr) : Z :=
  default 0%Z (last_structure_optim_ <$> h !! p).

(** [bool ptLastOptimComparator(Point* lhs, Point* rhs)] *)
Definition ptLastOptimComparator (h : gmap nat Point) (lhs rhs : PointPtr)
  : bool :=
  (mark h lhs <? mark h rhs)%Z.

(** First loop of [optimizeStructure]: the points of the features of the
    frame, skipping the features whose pointer is [NULL]. *)
Definition collect_points (fts : list Feature) : list PointPtr :=
  omap point fts.

(** The pointers the second loop visits, in order: the first [max_n_pts]
    positions after the partial selection. *)
Definition select_points (h : gmap nat Point) (frame : Frame)
    (max_n_pts : nat) : list PointPtr :=
  let pts := collect_points (fts_ frame) in
  let max_n_pts := Nat.min max_n_pts (length pts) in
  let pts := nth_element (ptLastOptimComparator h) max_n_pts pts in
  take max_n_pts pts.

(** Body of the second loop: refine the point, then stamp it. *)
Definition refine_point (frame_id : Z) (max_iter : Z)
    (h : gmap nat Point) (p : PointPtr) : gmap nat Point :=
  alter (fun pt =>
           {| pos_ := pos_ (Point_optimize max_iter pt);
              last_structure_optim_ := frame_id |}) p h.

(** [void FrameHandlerBase::optimizeStructure(FramePtr frame,
    size_t max_n_pts, int max_iter)]: the heap afterwards and the calls of
    [optimize], in order. *)
Definition optimizeStructure (frame : Frame) (max_n_pts : nat)
    (max_iter : Z) (h : gmap nat Point) : gmap nat Point * list Event :=
  let visited := select_points h frame max_n_pts in
  (foldl (refine_point (id_ frame) max_iter) h visited,
   (fun p => EvOptimize p max_iter) <$> visited).

End Structure.

Arguments mkPoint {Pos} _ _.
Arguments pos_ {Pos} _.
Arguments last_structure_optim_ {Pos} _.
Arguments mark {Pos} _ _.
Arguments ptLastOptimComparator {Pos} _ _ _.
Arguments select_points {Pos} _ _ _ _.
Arguments refine_point {Pos} _ _ _ _ _.
Arguments optimizeStructure {Pos} _ _ _ _ _ _.

(** What [std::nth_element] guarantees for the call made here: the result is
    a rearrangement of the input, and no element from position [nth] on
    compares less than an element before position [nth]. *)
Definition nth_element_post {A} (comp : A -> A -> bool) (nth : nat)
    (l l' : list A) : Prop :=
  l' ≡ₚ l
  /\ forall x y, x ∈ take nth l' -> y ∈ drop nth l' -> comp y x = false.

Definition nth_element_ok {Pos}
    (nth_element :
       (PointPtr -> PointPtr -> bool) -> nat -> list PointPtr -> list PointPtr)
  : Prop :=
  forall (h : gmap nat (Point Pos)) nth l,
    nth <= length l ->
    nth_element_post (ptLastOptimComparator h) nth l
      (nth_element (ptLastOptimComparator h) nth l).

(** An executable [nth_element]: a full sort by the comparator, which is
    one of the rearrangements the standard permits. *)
Definition not_after {A} (comp : A -> A -> bool) (x y : A) : Prop :=
  comp y x = false.

#[global] Instance not_after_dec {A} (comp : A -> A -> bool) x y :
  Decision (not_after comp x y).
Proof. unfold not_after. apply _. Defined.

Definition nth_element_sort
    (comp : PointPtr -> PointPtr -> bool) (nth : nat) (l : list PointPtr)
  : list PointPtr :=
  merge_sort (not_after comp) l.

(** A stand-in for the refinement, used to run the optimizer: the state of
    a point is the number of iterations spent on it so far. *)
Definition optimize_count (max_iter : Z) (pt : Point Z) : Point Z :=
  {| pos_ := (pos_ pt + max_iter)%Z;
     last_structure_optim_ := last_structure_optim_ pt |}.

(** The stamped, refined point the second loop leaves behind. *)
Definition refined {Pos} (Point_optimize : Z -> Point Pos -> Point Pos)
    (frame_id max_iter : Z) (pt : Point Pos) : Point Pos :=
  {| pos_ := pos_ (Point_optimize max_iter pt);
     last_structure_optim_ := frame_id |}.

(** The pointers passed to [optimize], read off a trace. *)
Definition optimized (tr : list Event) : list PointPtr :=
  omap (fun e => match e with EvOptimize p _ => Some p | _ => None end) tr.

(** ** Construction, destruction and whole runs *)

(** [FrameHandlerBase::FrameHandlerBase()], built without [SVO_TRACE]: the
    member initialisers, then the log line. *)
Definition constructor (m : Map.t) : FrameHandlerBase * list Event :=
  (FrameHandlerBase_init m, [EvDiag "SVO_INFO_STREAM SVO initialized"]).

(** [FrameHandlerBase::~FrameHandlerBase()], built without [SVO_TRACE]. *)
Definition destructor : FH.M unit :=
  FH.emit (EvDiag "SVO_INFO_STREAM SVO destructor invoked").

(** The calls one operation makes on the collaborators. *)
Definition call_trace (cfg : Config) (c : Call) (s : FrameHandlerBase)
  : list Event :=
  match c with
  | CallStartFrameProcessing ts =>
      FH.trace (startFrameProcessingCommon ts s)
  | CallFinishFrameProcessing u r n =>
      FH.trace (finishFrameProcessingCommon u r n s)
  | CallResetAll => FH.trace (resetAll s)
  | CallRequestReset => FH.trace (reset s)
  | CallRequestStart => FH.trace (start s)
  | CallSetTrackingQuality n => FH.trace (setTrackingQuality cfg n s)
  end.

(** Whether the call is a [startFrameProcessingCommon] that returns [true]. *)
Definition accepted (c : Call) (s : FrameHandlerBase) : bool :=
  match c with
  | CallStartFrameProcessing ts =>
      FH.result (startFrameProcessingCommon ts s)
  | _ => false
  end.

(** The calls made on the collaborators along a sequence of operations. *)
Fixpoint trace_all (cfg : Config) (cs : list Call) (s : FrameHandlerBase)
  : list Event :=
  match cs with
  | [] => []
  | c :: cs' => call_trace cfg c s ++ trace_all cfg cs' (exec cfg c s)
  end.

(** The number of frames accepted along a sequence of operations. *)
Fixpoint accepted_frames (cfg : Config) (cs : list Call)
    (s : FrameHandlerBase) : nat :=
  match cs with
  | [] => 0
  | c :: cs' =>
      (if accepted c s then 1 else 0) + accepted_frames cfg cs' (exec cfg c s)
  end.

(** The operations that can take the handler out of the paused stage: a
    start request, and a reported failure. *)
Definition wakes (c : Call) : bool :=
  match c with
  | CallRequestStart => true
  | CallFinishFrameProcessing _ RESULT_FAILURE _ => true
  | _ => false
  end.

(** The failure branch of [finishFrameProcessingCommon] that resets: a
    failure reported outside the two tracking stages. *)
Definition hard_failure (s : FrameHandlerBase) (dropout : UpdateResult)
  : bool :=
  bool_decide (dropout = RESULT_FAILURE)
  && negb (bool_decide (stage_ s = STAGE_DEFAULT_FRAME)
           || bool_decide (stage_ s = STAGE_RELOCALIZING)).

(** * Properties *)

(** ** Machine integers *)

Lemma to_int_id (z : Z) :
  (- 2 ^ 31 <= z < 2 ^ 31)%Z -> Int.to_int z = z.
Proof.
  intros Hz. unfold Int.to_int, Int.int_bits. simpl.
  rewrite Z.mod_small; lia.
Qed.

Lemma to_int_sub_size_t (a n : Z) :
  Int.to_int (Int.to_size_t (Int.to_size_t a - n)) = Int.to_int (a - n).
Proof.
  unfold Int.to_int, Int.to_size_t, Int.int_bits, Int.size_t_bits. simpl.
  Z.div_mod_to_equations. lia.
Qed.

(** The [int] drop is the exact difference reduced to 32 bits. *)
Lemma feature_drop_wrap cfg last n :
  feature_drop cfg last n
  = Int.to_int (Int.to_int (Z.min last (maxFts cfg)) - n).
Proof. unfold feature_drop. apply to_int_sub_size_t. Qed.

(** Within the range of [int] the drop is the exact difference. *)
Lemma feature_drop_exact cfg last n :
  (0 <= n < 2 ^ 31)%Z -> (0 <= last < 2 ^ 31)%Z -> (0 <= maxFts cfg)%Z ->
  feature_drop cfg last n = (Z.min last (maxFts cfg) - n)%Z.
Proof.
  intros Hn Hl Hm. rewrite feature_drop_wrap.
  rewrite (to_int_id (Z.min _ _)) by lia.
  apply to_int_id. lia.
Qed.

(** ** Running the member functions *)

Ltac fh_unfold :=
  unfold startFrameProcessingCommon, apply_pending_start,
    finishFrameProcessingCommon, setTrackingQuality, resetAll, resetCommon,
    reset, start, map_reset, map_emptyTrash,
    FH.bind, FH.ret, FH.get, FH.modify, FH.emit,
    FH.result, FH.state, FH.trace in *.

Ltac fh_run := fh_unfold; simpl in *.

Lemma resetAll_run (s : FrameHandlerBase) :
  resetAll s
  = (tt,
     {| stage_ := STAGE_PAUSED; set_reset_ := false; set_start_ := false;
        num_obs_last_ := 0; tracking_quality_ := TRACKING_INSUFFICIENT;
        map_ := Map.reset (map_ s) |},
     [EvMapReset; EvDiag "SVO_INFO_STREAM RESET"]).
Proof. reflexivity. Qed.

Lemma start_pending_run (timestamp : double) (s : FrameHandlerBase) :
  set_start_ s = true ->
  startFrameProcessingCommon timestamp s
  = (true,
     {| stage_ := STAGE_FIRST_FRAME; set_reset_ := false;
        set_start_ := false; num_obs_last_ := 0;
        tracking_quality_ := TRACKING_INSUFFICIENT;
        map_ := Map.emptyTrash (Map.reset (map_ s)) |},
     [EvMapReset; EvDiag "SVO_INFO_STREAM RESET";
      EvDiag "SVO_LOG timestamp"; EvDiag "SVO_DEBUG_STREAM New Frame";
      EvDiag "SVO_START_TIMER tot_time"; EvMapEmptyTrash]).
Proof. intros H. fh_unfold. rewrite H. reflexivity. Qed.

Lemma start_paused_run (timestamp : double) (s : FrameHandlerBase) :
  set_start_ s = false -> stage_ s = STAGE_PAUSED ->
  startFrameProcessingCommon timestamp s = (false, s, []).
Proof. intros H1 H2. fh_unfold. rewrite H1. simpl. rewrite H2. reflexivity. Qed.

Lemma start_active_run (timestamp : double) (s : FrameHandlerBase) :
  set_start_ s = false -> stage_ s <> STAGE_PAUSED ->
  startFrameProcessingCommon timestamp s
  = (true, set_map (Map.emptyTrash (map_ s)) s,
     [EvDiag "SVO_LOG timestamp"; EvDiag "SVO_DEBUG_STREAM New Frame";
      EvDiag "SVO_START_TIMER tot_time"; EvMapEmptyTrash]).
Proof.
  intros H1 H2. fh_unfold. rewrite H1. simpl.
  destruct (decide (stage_ s = STAGE_PAUSED)); [done | reflexivity].
Qed.

(** A failure outside the tracking stages: full reset, then the start flag. *)
Lemma finish_hard_failure_run (update_id n : Z) (s : FrameHandlerBase) :
  stage_ s <> STAGE_DEFAULT_FRAME -> stage_ s <> STAGE_RELOCALIZING ->
  finishFrameProcessingCommon update_id RESULT_FAILURE n s
  = (0%Z,
     {| stage_ := STAGE_PAUSED; set_reset_ := false; set_start_ := true;
        num_obs_last_ := 0; tracking_quality_ := TRACKING_INSUFFICIENT;
        map_ := Map.reset (map_ s) |},
     [EvDiag "SVO_LOG dropout"; EvDiag "SVO_STOP_TIMER tot_time";
      EvMapReset; EvDiag "SVO_INFO_STREAM RESET"]).
Proof.
  intros H1 H2. fh_run.
  rewrite (bool_decide_eq_false_2 _ H1), (bool_decide_eq_false_2 _ H2).
  reflexivity.
Qed.

(** A failure in a tracking stage without a pending reset. *)
Lemma finish_soft_failure_run (update_id n : Z) (s : FrameHandlerBase) :
  stage_ s = STAGE_DEFAULT_FRAME \/ stage_ s = STAGE_RELOCALIZING ->
  set_reset_ s = false ->
  finishFrameProcessingCommon update_id RESULT_FAILURE n s
  = (0%Z,
     set_tracking_quality TRACKING_INSUFFICIENT
       (set_stage STAGE_RELOCALIZING (set_num_obs_last n s)),
     [EvDiag "SVO_LOG dropout"; EvDiag "SVO_STOP_TIMER tot_time"]).
Proof.
  intros Hst Hr. fh_run.
  destruct Hst as [-> | ->]; simpl; rewrite Hr; reflexivity.
Qed.

(** A pending reset request: the call ends in the reset state. *)
Lemma finish_pending_reset_state
    (update_id : Z) (dropout : UpdateResult) (n : Z) (s : FrameHandlerBase) :
  set_reset_ s = true ->
  (dropout <> RESULT_FAILURE
   \/ stage_ s = STAGE_DEFAULT_FRAME \/ stage_ s = STAGE_RELOCALIZING) ->
  FH.state (finishFrameProcessingCommon update_id dropout n s)
  = {| stage_ := STAGE_PAUSED; set_reset_ := false; set_start_ := false;
       num_obs_last_ := 0; tracking_quality_ := TRACKING_INSUFFICIENT;
       map_ := Map.reset (map_ s) |}.
Proof.
  intros Hr Hc. fh_run.
  destruct dropout; simpl; rewrite ?Hr; try reflexivity.
  destruct Hc as [Hc | [-> | ->]]; [done | | ]; simpl; rewrite Hr; reflexivity.
Qed.

(** No failure and no pending reset: only the count is recorded. *)
Lemma finish_plain_run
    (update_id : Z) (dropout : UpdateResult) (n : Z) (s : FrameHandlerBase) :
  dropout <> RESULT_FAILURE -> set_reset_ s = false ->
  finishFrameProcessingCommon update_id dropout n s
  = (0%Z, set_num_obs_last n s,
     [EvDiag "SVO_LOG dropout"; EvDiag "SVO_STOP_TIMER tot_time"]).
Proof.
  intros Hd Hr. fh_run.
  destruct dropout; try done; simpl; rewrite Hr; reflexivity.
Qed.

Lemma setTrackingQuality_stage cfg n s :
  stage_ (FH.state (setTrackingQuality cfg n s)) = stage_ s.
Proof.
  fh_run.
  destruct (n <? qualityMinFts cfg)%Z; simpl;
    destruct (feature_drop cfg (num_obs_last_ s) n >? qualityMaxFtsDrop cfg)%Z;
    reflexivity.
Qed.

(** ** The lifecycle controller *)

(** C9. After [resetAll()], from any state of the controller: the stage is
    Paused, the last observation count is 0, the tracking quality is
    Insufficient, both request flags are cleared, and the map has been reset
    (once), so that it holds no point and no candidate. *)
Theorem resetAll_postcondition (s : FrameHandlerBase) :
  let r := resetAll s in
  stage_ (FH.state r) = STAGE_PAUSED
  /\ num_obs_last_ (FH.state r) = 0%Z
  /\ tracking_quality_ (FH.state r) = TRACKING_INSUFFICIENT
  /\ set_reset_ (FH.state r) = false
  /\ set_start_ (FH.state r) = false
  /\ map_ (FH.state r) = Map.reset (map_ s)
  /\ Map.points (map_ (FH.state r)) = []
  /\ Map.candidates (map_ (FH.state r)) = []
  /\ count_events is_mapReset (FH.trace r) = 1.
Proof. rewrite resetAll_run. repeat split. Qed.

(** C10. A pending start request is honoured from any stage: when
    [set_start_] is set, [startFrameProcessingCommon] performs a full reset,
    sets the stage to FirstFrame, leaves the start flag cleared, drains the
    trash and returns [true], whatever the stage at entry. *)
Theorem start_request_honored (timestamp : double) (s : FrameHandlerBase) :
  set_start_ s = true ->
  let r := startFrameProcessingCommon timestamp s in
  FH.result r = true
  /\ stage_ (FH.state r) = STAGE_FIRST_FRAME
  /\ set_start_ (FH.state r) = false
  /\ set_reset_ (FH.state r) = false
  /\ num_obs_last_ (FH.state r) = 0%Z
  /\ tracking_quality_ (FH.state r) = TRACKING_INSUFFICIENT
  /\ map_ (FH.state r) = Map.emptyTrash (Map.reset (map_ s))
  /\ count_events is_mapReset (FH.trace r) = 1
  /\ count_events is_emptyTrash (FH.trace r) = 1
  /\ last (FH.trace r) = Some EvMapEmptyTrash.
Proof. intros H. rewrite (start_pending_run _ _ H). repeat split. Qed.

Lemma start_request_honored_witness :
  let s := {| stage_ := STAGE_DEFAULT_FRAME; set_reset_ := false;
              set_start_ := true; num_obs_last_ := 120;
              tracking_quality_ := TRACKING_GOOD;
              map_ := Map.mk [1; 2] [3] [4] |} in
  let r := startFrameProcessingCommon (mk_double 0) s in
  stage_ s = STAGE_DEFAULT_FRAME
  /\ FH.result r = true
  /\ stage_ (FH.state r) = STAGE_FIRST_FRAME
  /\ map_ (FH.state r) = Map.mk [] [] [].
Proof.
  pose proof (start_request_honored (mk_double 0)
    {| stage_ := STAGE_DEFAULT_FRAME; set_reset_ := false;
       set_start_ := true; num_obs_last_ := 120;
       tracking_quality_ := TRACKING_GOOD;
       map_ := Map.mk [1; 2] [3] [4] |} eq_refl) as H.
  simpl in H. destruct H as (H1 & H2 & _ & _ & _ & _ & H3 & _).
  repeat split; assumption.
Defined.

(** C2. [startFrameProcessingCommon] returns [false] exactly when the stage
    is Paused once the pending start request has been applied; it then does
    nothing else (the object is unchanged and no call is made on a
    collaborator); when it returns [true] it has drained the trash of the
    map exactly once, as its last action. *)
Theorem startFrameProcessing_active (timestamp : double)
    (s : FrameHandlerBase) :
  let head := apply_pending_start s in
  let r := startFrameProcessingCommon timestamp s in
  (FH.result r = false <-> stage_ (FH.state head) = STAGE_PAUSED)
  /\ (if FH.result r
      then count_events is_emptyTrash (FH.trace r) = 1
           /\ FH.state r
              = set_map (Map.emptyTrash (map_ (FH.state head))) (FH.state head)
           /\ last (FH.trace r) = Some EvMapEmptyTrash
      else FH.state r = s /\ FH.trace r = []
           /\ FH.state head = s /\ FH.trace head = []).
Proof.
  destruct (set_start_ s) eqn:Hs.
  - rewrite (start_pending_run _ _ Hs). fh_unfold. rewrite Hs. simpl.
    repeat split; done.
  - destruct (decide (stage_ s = STAGE_PAUSED)) as [Hp | Hp].
    + rewrite (start_paused_run _ _ Hs Hp). fh_unfold. rewrite Hs. simpl.
      repeat split; done.
    + rewrite (start_active_run _ _ Hs Hp). fh_unfold. rewrite Hs. simpl.
      repeat split; done.
Qed.

Lemma startFrameProcessing_active_witness :
  let s := FrameHandlerBase_init (Map.mk [1] [2] [3]) in
  let r := startFrameProcessingCommon (mk_double 0) s in
  FH.result r = false /\ FH.state r = s /\ FH.trace r = [].
Proof.
  pose proof (startFrameProcessing_active (mk_double 0)
    (FrameHandlerBase_init (Map.mk [1] [2] [3]))) as [H1 H2].
  simpl in *. destruct H2 as (H2 & H3 & _).
  split; [apply H1; reflexivity | split; assumption].
Defined.

(** C3, as the code has it.  With no reset request pending, a failure
    reported in stage DefaultFrame or Relocalizing sets the stage to
    Relocalizing and the quality to Insufficient and leaves the map as it
    was: no reset is performed. *)
Theorem soft_failure_relocalizes (update_id n : Z) (s : FrameHandlerBase) :
  stage_ s = STAGE_DEFAULT_FRAME \/ stage_ s = STAGE_RELOCALIZING ->
  set_reset_ s = false ->
  let r := finishFrameProcessingCommon update_id RESULT_FAILURE n s in
  stage_ (FH.state r) = STAGE_RELOCALIZING
  /\ tracking_quality_ (FH.state r) = TRACKING_INSUFFICIENT
  /\ map_ (FH.state r) = map_ s
  /\ count_events is_mapReset (FH.trace r) = 0.
Proof.
  intros Hst Hr. rewrite (finish_soft_failure_run _ _ _ Hst Hr).
  repeat split.
Qed.

Lemma soft_failure_relocalizes_witness :
  let s := {| stage_ := STAGE_DEFAULT_FRAME; set_reset_ := false;
              set_start_ := false; num_obs_last_ := 120;
              tracking_quality_ := TRACKING_GOOD;
              map_ := Map.mk [1; 2] [3] [4] |} in
  let r := finishFrameProcessingCommon 7 RESULT_FAILURE 10 s in
  stage_ (FH.state r) = STAGE_RELOCALIZING
  /\ tracking_quality_ (FH.state r) = TRACKING_INSUFFICIENT
  /\ map_ (FH.state r) = Map.mk [1; 2] [3] [4].
Proof.
  pose proof (soft_failure_relocalizes 7 10
    {| stage_ := STAGE_DEFAULT_FRAME; set_reset_ := false;
       set_start_ := false; num_obs_last_ := 120;
       tracking_quality_ := TRACKING_GOOD;
       map_ := Map.mk [1; 2] [3] [4] |}
    (or_introl eq_refl) eq_refl) as (H1 & H2 & H3 & _).
  repeat split; assumption.
Defined.

(** C3 as stated fails when a reset request is pending: in stage
    DefaultFrame with [set_reset_] set, a failure ends in stage Paused with
    the map reset. *)
Lemma soft_failure_relocalizes_counterexample :
  let s := {| stage_ := STAGE_DEFAULT_FRAME; set_reset_ := true;
              set_start_ := false; num_obs_last_ := 120;
              tracking_quality_ := TRACKING_GOOD;
              map_ := Map.mk [1; 2] [3] [4] |} in
  let r := finishFrameProcessingCommon 7 RESULT_FAILURE 10 s in
  (stage_ s = STAGE_DEFAULT_FRAME \/ stage_ s = STAGE_RELOCALIZING)
  /\ ~ (stage_ (FH.state r) = STAGE_RELOCALIZING
        /\ tracking_quality_ (FH.state r) = TRACKING_INSUFFICIENT
        /\ map_ (FH.state r) = map_ s)
  /\ stage_ (FH.state r) = STAGE_PAUSED
  /\ map_ (FH.state r) = Map.mk [] [] [4].
Proof.
  simpl. split; [left; reflexivity | ].
  split; [ | split; reflexivity].
  intros (H & _). vm_compute in H. discriminate H.
Qed.

(** C4. A failure reported in stage FirstFrame performs a full reset and
    then sets the start flag: the stage is Paused and [set_start_] is set;
    the next [startFrameProcessingCommon] moves to FirstFrame and returns
    [true]. *)
Theorem finish_hard_failure_restarts
    (update_id n : Z) (timestamp : double) (s : FrameHandlerBase) :
  stage_ s = STAGE_FIRST_FRAME ->
  let r := finishFrameProcessingCommon update_id RESULT_FAILURE n s in
  let r' := startFrameProcessingCommon timestamp (FH.state r) in
  stage_ (FH.state r) = STAGE_PAUSED
  /\ set_start_ (FH.state r) = true
  /\ set_reset_ (FH.state r) = false
  /\ map_ (FH.state r) = Map.reset (map_ s)
  /\ count_events is_mapReset (FH.trace r) = 1
  /\ FH.result r' = true
  /\ stage_ (FH.state r') = STAGE_FIRST_FRAME.
Proof.
  intros Hst.
  rewrite finish_hard_failure_run by (rewrite Hst; discriminate).
  repeat split.
Qed.

Lemma finish_hard_failure_restarts_witness :
  let s := {| stage_ := STAGE_FIRST_FRAME; set_reset_ := true;
              set_start_ := false; num_obs_last_ := 0;
              tracking_quality_ := TRACKING_INSUFFICIENT;
              map_ := Map.mk [1; 2] [3] [4] |} in
  let r := finishFrameProcessingCommon 7 RESULT_FAILURE 10 s in
  let r' := startFrameProcessingCommon (mk_double 1) (FH.state r) in
  stage_ (FH.state r) = STAGE_PAUSED
  /\ set_start_ (FH.state r) = true
  /\ FH.result r' = true
  /\ stage_ (FH.state r') = STAGE_FIRST_FRAME.
Proof.
  pose proof (finish_hard_failure_restarts 7 10 (mk_double 1)
    {| stage_ := STAGE_FIRST_FRAME; set_reset_ := true;
       set_start_ := false; num_obs_last_ := 0;
       tracking_quality_ := TRACKING_INSUFFICIENT;
       map_ := Map.mk [1; 2] [3] [4] |} eq_refl)
    as (H1 & H2 & _ & _ & _ & H3 & H4).
  repeat split; assumption.
Defined.

(** C5, as the code has it.  After [finishFrameProcessingCommon] the last
    observation count is the count passed in, unless the call ran a full
    reset (a failure outside the tracking stages, or a pending reset
    request), in which case it is 0. *)
Theorem finish_records_observations
    (update_id : Z) (dropout : UpdateResult) (n : Z) (s : FrameHandlerBase) :
  let r := finishFrameProcessingCommon update_id dropout n s in
  FH.result r = 0%Z
  /\ num_obs_last_ (FH.state r) = (if finish_resets s dropout then 0%Z else n)
  /\ count_events is_mapReset (FH.trace r)
     = (if finish_resets s dropout then 1 else 0).
Proof.
  destruct s as [st rr ss nn tq m].
  destruct dropout, st, rr; repeat split.
Qed.

(** C5 as stated fails on a failure during FirstFrame: the count passed in
    is 100, the count recorded after the call is 0. *)
Lemma finish_records_observations_counterexample :
  let s := {| stage_ := STAGE_FIRST_FRAME; set_reset_ := false;
              set_start_ := false; num_obs_last_ := 80;
              tracking_quality_ := TRACKING_GOOD;
              map_ := Map.mk [1; 2] [3] [4] |} in
  let r := finishFrameProcessingCommon 7 RESULT_FAILURE 100 s in
  num_obs_last_ (FH.state r) <> 100%Z /\ num_obs_last_ (FH.state r) = 0%Z.
Proof. simpl. split; [discriminate | reflexivity]. Qed.

(** C6. In stage FirstFrame, a failure reported with the reset request set
    leaves the controller in the same state, with the same return value and
    the same calls on the collaborators, as the same call with the reset
    request clear; the map is reset once in both. *)
Theorem finish_pending_reset_idempotent
    (update_id n : Z) (s : FrameHandlerBase) :
  stage_ s = STAGE_FIRST_FRAME ->
  let r1 := finishFrameProcessingCommon update_id RESULT_FAILURE n
              (set_set_reset true s) in
  let r0 := finishFrameProcessingCommon update_id RESULT_FAILURE n
              (set_set_reset false s) in
  FH.state r1 = FH.state r0
  /\ r1 = r0
  /\ count_events is_mapReset (FH.trace r1) = 1.
Proof.
  intros Hst.
  rewrite !finish_hard_failure_run by (simpl; rewrite Hst; discriminate).
  repeat split.
Qed.

Lemma finish_pending_reset_idempotent_witness :
  let s := {| stage_ := STAGE_FIRST_FRAME; set_reset_ := false;
              set_start_ := false; num_obs_last_ := 80;
              tracking_quality_ := TRACKING_GOOD;
              map_ := Map.mk [1; 2] [3] [4] |} in
  FH.state (finishFrameProcessingCommon 7 RESULT_FAILURE 100
              (set_set_reset true s))
  = FH.state (finishFrameProcessingCommon 7 RESULT_FAILURE 100
                (set_set_reset false s)).
Proof.
  exact (proj1 (finish_pending_reset_idempotent 7 100
    {| stage_ := STAGE_FIRST_FRAME; set_reset_ := false;
       set_start_ := false; num_obs_last_ := 80;
       tracking_quality_ := TRACKING_GOOD;
       map_ := Map.mk [1; 2] [3] [4] |} eq_refl)).
Defined.

(** C7, as the code has it.  For observation counts in the range of [int]
    (the count passed in and the last count both below [2^31]),
    [setTrackingQuality] yields Good when the count is at least
    [qualityMinFts] and the drop [min(num_obs_last_, maxFts) - n] does not
    exceed [qualityMaxFtsDrop], and Insufficient when the count is below the
    minimum or the drop exceeds the maximum. *)
Theorem setTrackingQuality_gate (cfg : Config) (n : Z)
    (s : FrameHandlerBase) :
  (0 <= n < 2 ^ 31)%Z ->
  (0 <= num_obs_last_ s < 2 ^ 31)%Z ->
  (0 <= maxFts cfg)%Z ->
  let q := tracking_quality_ (FH.state (setTrackingQuality cfg n s)) in
  let drop := (Z.min (num_obs_last_ s) (maxFts cfg) - n)%Z in
  q = spec_quality cfg (num_obs_last_ s) n
  /\ (q = TRACKING_GOOD <->
      (qualityMinFts cfg <= n)%Z /\ (drop <= qualityMaxFtsDrop cfg)%Z)
  /\ (q = TRACKING_INSUFFICIENT <->
      (n < qualityMinFts cfg)%Z \/ (qualityMaxFtsDrop cfg < drop)%Z).
Proof.
  intros Hn Hl Hm. simpl.
  assert (tracking_quality_ (FH.state (setTrackingQuality cfg n s))
          = spec_quality cfg (num_obs_last_ s) n) as ->.
  { unfold spec_quality. fh_run.
    destruct (n <? qualityMinFts cfg)%Z; simpl;
      rewrite (feature_drop_exact cfg _ _ Hn Hl Hm);
      destruct (_ >? _)%Z; reflexivity. }
  unfold spec_quality.
  destruct (Z.ltb_spec n (qualityMinFts cfg));
    destruct (Z.gtb_spec (Z.min (num_obs_last_ s) (maxFts cfg) - n)
                (qualityMaxFtsDrop cfg));
    (split; [reflexivity | split; split; intros; try done; lia]).
Qed.

Lemma setTrackingQuality_gate_witness :
  let cfg := mkConfig 50 120 40 in
  let s := set_num_obs_last 110 (FrameHandlerBase_init (Map.mk [] [] [])) in
  tracking_quality_ (FH.state (setTrackingQuality cfg 60 s))
  = TRACKING_INSUFFICIENT
  /\ tracking_quality_ (FH.state (setTrackingQuality cfg 70 s))
     = TRACKING_GOOD.
Proof.
  split.
  - exact (proj1 (setTrackingQuality_gate (mkConfig 50 120 40) 60
      (set_num_obs_last 110 (FrameHandlerBase_init (Map.mk [] [] [])))
      ltac:(simpl; lia) ltac:(simpl; lia) ltac:(simpl; lia))).
  - exact (proj1 (setTrackingQuality_gate (mkConfig 50 120 40) 70
      (set_num_obs_last 110 (FrameHandlerBase_init (Map.mk [] [] [])))
      ltac:(simpl; lia) ltac:(simpl; lia) ltac:(simpl; lia))).
Defined.

(** C7 as stated fails outside the range of [int]: with no prior frame and
    [2^31 + 1] observations the count is above the minimum and the exact
    drop is negative, yet the [int] drop wraps to [2^31 - 1] and the quality
    is Insufficient. *)
Lemma setTrackingQuality_gate_counterexample :
  let cfg := mkConfig 50 120 40 in
  let s := FrameHandlerBase_init (Map.mk [] [] []) in
  let n := 2147483649%Z in
  Int.size_t_range n
  /\ (qualityMinFts cfg <= n)%Z
  /\ (Z.min (num_obs_last_ s) (maxFts cfg) - n <= qualityMaxFtsDrop cfg)%Z
  /\ feature_drop cfg (num_obs_last_ s) n = 2147483647%Z
  /\ tracking_quality_ (FH.state (setTrackingQuality cfg n s))
     = TRACKING_INSUFFICIENT
  /\ tracking_quality_ (FH.state (setTrackingQuality cfg n s))
     <> spec_quality cfg (num_obs_last_ s) n.
Proof.
  simpl. unfold Int.size_t_range. simpl.
  repeat split; try lia; try reflexivity.
  vm_compute. discriminate.
Qed.

(** C1, as the code has it.  Along every sequence of calls, from any state
    of the controller, the stage observed between calls either stays or
    moves: to FirstFrame from any stage, by [startFrameProcessingCommon]
    with a start request pending; to Relocalizing from DefaultFrame or
    Relocalizing, by a failure with no reset pending; to Paused from any
    stage, by [resetAll], by a failure outside the tracking stages, or by a
    pending reset at the end of [finishFrameProcessingCommon]. *)
Theorem stage_transition_closure (cfg : Config) (cs : list Call)
    (s : FrameHandlerBase) :
  moves_ok stage_move cfg s cs.
Proof.
  revert s. induction cs as [| c cs IH]; intros s; simpl; [exact I | ].
  split; [ | apply IH]. clear IH.
  destruct c as [ts | u r n | | | | n]; simpl.
  - destruct (set_start_ s) eqn:Hs.
    + rewrite (start_pending_run _ _ Hs). simpl.
      eapply move_start; [reflexivity | exact Hs].
    + destruct (decide (stage_ s = STAGE_PAUSED)) as [Hp | Hp].
      * rewrite (start_paused_run _ _ Hs Hp). apply move_none.
      * rewrite (start_active_run _ _ Hs Hp). apply move_none.
  - destruct (set_reset_ s) eqn:Hr.
    + destruct (decide (r = RESULT_FAILURE
                        /\ stage_ s <> STAGE_DEFAULT_FRAME
                        /\ stage_ s <> STAGE_RELOCALIZING))
        as [(-> & H1 & H2) | Hn].
      * rewrite (finish_hard_failure_run _ _ _ H1 H2). simpl.
        eapply move_pending_reset; [reflexivity | exact Hr].
      * rewrite finish_pending_reset_state; [ | exact Hr | ].
        -- eapply move_pending_reset; [reflexivity | exact Hr].
        -- destruct (decide (r = RESULT_FAILURE)); [ | by left].
           destruct (decide (stage_ s = STAGE_DEFAULT_FRAME)); [by auto | ].
           destruct (decide (stage_ s = STAGE_RELOCALIZING)); [by auto | ].
           exfalso. apply Hn. done.
    + destruct (decide (r = RESULT_FAILURE)) as [-> | Hd].
      * destruct (decide (stage_ s = STAGE_DEFAULT_FRAME
                          \/ stage_ s = STAGE_RELOCALIZING)) as [Hst | Hst].
        -- rewrite (finish_soft_failure_run _ _ _ Hst Hr). simpl.
           eapply move_soft_failure; [reflexivity | exact Hst | exact Hr].
        -- rewrite finish_hard_failure_run by tauto. simpl.
           eapply move_hard_failure; [reflexivity | tauto | tauto].
      * rewrite (finish_plain_run _ _ _ _ Hd Hr). apply move_none.
  - apply move_resetAll. reflexivity.
  - apply move_none.
  - apply move_none.
  - rewrite setTrackingQuality_stage. apply move_none.
Qed.

(** C1 as stated fails: with a start request pending while tracking in
    DefaultFrame, [startFrameProcessingCommon] moves the stage from
    DefaultFrame to FirstFrame, a move outside the closure of the
    specification. *)
Lemma stage_transition_closure_counterexample :
  let cfg := mkConfig 50 120 40 in
  let s := {| stage_ := STAGE_DEFAULT_FRAME; set_reset_ := false;
              set_start_ := false; num_obs_last_ := 120;
              tracking_quality_ := TRACKING_GOOD;
              map_ := Map.mk [1; 2] [3] [4] |} in
  let cs := [CallRequestStart; CallStartFrameProcessing (mk_double 0)] in
  ~ moves_ok spec_closure cfg s cs
  /\ stage_ (exec cfg CallRequestStart s) = STAGE_DEFAULT_FRAME
  /\ stage_ (exec_all cfg cs s) = STAGE_FIRST_FRAME.
Proof.
  simpl. split; [ | split; reflexivity].
  intros (_ & H & _). vm_compute in H.
  unfold spec_closure, spec_stage_move in H.
  destruct H as [H | [[H _] | [[_ H] | H]]]; discriminate H.
Qed.

(** ** The structure optimizer *)

Lemma filter_length_id {A} (P : A -> Prop) `{!forall x, Decision (P x)}
    (l : list A) :
  length (filter P l) = length l -> filter P l = l.
Proof.
  induction l as [| x l IH]; [done | ].
  rewrite filter_cons. case_decide; simpl; intros Hlen.
  - f_equal. apply IH. lia.
  - pose proof (length_filter P l). lia.
Qed.

Lemma filter_Forall_id {A} (P : A -> Prop) `{!forall x, Decision (P x)}
    (l : list A) :
  Forall P l -> filter P l = l.
Proof.
  induction 1 as [| x l Hx _ IH]; [done | ].
  rewrite filter_cons_True by done. by rewrite IH.
Qed.

(** If exactly [k] elements lie below a threshold and the first [k]
    positions hold keys no larger than the remaining ones, the first [k]
    positions hold exactly the elements below the threshold. *)
Lemma take_smallest_below {A} (key : A -> Z) (t : Z) (k : nat) (l : list A) :
  k <= length l ->
  (forall x y, x ∈ take k l -> y ∈ drop k l -> (key x <= key y)%Z) ->
  length (filter (fun x => (key x < t)%Z) l) = k ->
  take k l = filter (fun x => (key x < t)%Z) l.
Proof.
  intros Hk Hle Hlen.
  rewrite <- (take_drop k l) in Hlen |- * at 2.
  rewrite filter_app in Hlen |- *. rewrite length_app in Hlen.
  destruct (filter (fun x => (key x < t)%Z) (drop k l)) as [| y r] eqn:Hr.
  - rewrite app_nil_r. symmetry. apply filter_length_id.
    rewrite length_take_le by done. simpl in Hlen. lia.
  - exfalso.
    assert (y ∈ filter (fun x => (key x < t)%Z) (drop k l)) as Hy
      by (rewrite Hr; left).
    apply list_elem_of_filter in Hy as [Hyt Hy].
    rewrite filter_Forall_id in Hlen.
    + rewrite length_take_le in Hlen by done. simpl in Hlen. lia.
    + apply Forall_forall. intros x Hx. specialize (Hle x y Hx Hy). lia.
Qed.

Section StructureOptimizer.

Context {Pos : Type}.
Variable Point_optimize : Z -> Point Pos -> Point Pos.
Variable nth_element :
  (PointPtr -> PointPtr -> bool) -> nat -> list PointPtr -> list PointPtr.

(** The second loop leaves alone every point it does not visit. *)
Lemma refine_points_other frame_id max_iter (l : list PointPtr)
    (h : gmap nat (Point Pos)) (p : PointPtr) :
  p ∉ l ->
  foldl (refine_point Point_optimize frame_id max_iter) h l !! p = h !! p.
Proof.
  revert h. induction l as [| q l IH]; intros h Hp; [done | ].
  apply not_elem_of_cons in Hp as [Hne Hp]. simpl.
  rewrite IH by done. unfold refine_point. by rewrite lookup_alter_ne.
Qed.

(** A point visited once is refined once and stamped. *)
Lemma refine_points_visited frame_id max_iter (l : list PointPtr)
    (h : gmap nat (Point Pos)) (p : PointPtr) :
  NoDup l -> p ∈ l ->
  foldl (refine_point Point_optimize frame_id max_iter) h l !! p
  = refined Point_optimize frame_id max_iter <$> h !! p.
Proof.
  revert h. induction l as [| q l IH]; intros h Hnd Hp.
  - by apply elem_of_nil in Hp.
  - apply NoDup_cons in Hnd as [Hq Hnd]. simpl.
    apply elem_of_cons in Hp as [-> | Hp].
    + rewrite refine_points_other by done.
      unfold refine_point. by rewrite lookup_alter_eq.
    + rewrite IH by done. unfold refine_point.
      rewrite lookup_alter_ne; [done | ]. intros ->. done.
Qed.

Lemma optimized_trace max_iter (l : list PointPtr) :
  optimized ((fun p => EvOptimize p max_iter) <$> l) = l.
Proof.
  induction l as [| p l IH]; [done | ].
  change (p :: optimized ((fun p => EvOptimize p max_iter) <$> l) = p :: l).
  by rewrite IH.
Qed.

Hypothesis nth_element_spec : nth_element_ok (Pos:=Pos) nth_element.

(** What the partial selection delivers to the second loop. *)
Lemma select_points_spec (h : gmap nat (Point Pos)) (frame : Frame)
    (max_n_pts : nat) :
  let pts := collect_points (fts_ frame) in
  let k := Nat.min max_n_pts (length pts) in
  exists l',
    l' ≡ₚ pts
    /\ select_points nth_element h frame max_n_pts = take k l'
    /\ k <= length l'
    /\ forall x y, x ∈ take k l' -> y ∈ drop k l' ->
                   (mark h x <= mark h y)%Z.
Proof.
  intros pts k.
  destruct (nth_element_spec h k pts) as [Hperm Hcmp]; [subst k; lia | ].
  exists (nth_element (ptLastOptimComparator h) k pts).
  split; [exact Hperm | ]. split; [reflexivity | ].
  split; [rewrite Hperm; subst k; lia | ].
  intros x y Hx Hy. specialize (Hcmp x y Hx Hy).
  unfold ptLastOptimComparator in Hcmp. apply Z.ltb_ge in Hcmp. exact Hcmp.
Qed.

End StructureOptimizer.

(** The full sort is a valid [nth_element]. *)
Lemma nth_element_sort_ok {Pos} : nth_element_ok (Pos:=Pos) nth_element_sort.
Proof.
  intros h nth l Hn. unfold nth_element_sort.
  assert (Transitive (not_after (ptLastOptimComparator h))) as Htr.
  { intros x y z. unfold not_after, ptLastOptimComparator.
    rewrite !Z.ltb_ge. lia. }
  assert (Total (not_after (ptLastOptimComparator h))) as Htot.
  { intros x y. unfold not_after, ptLastOptimComparator.
    rewrite !Z.ltb_ge. lia. }
  split; [apply merge_sort_Permutation | ].
  intros x y Hx Hy.
  pose proof (StronglySorted_merge_sort (not_after (ptLastOptimComparator h)) l)
    as Hs.
  rewrite <- (take_drop nth (merge_sort _ l)) in Hs.
  exact (StronglySorted_app_1_elem_of _ _ _ x y Hs Hx Hy).
Qed.

(** C8, as the code has it.  For a frame whose features refer to pairwise
    distinct points, and any [nth_element] that meets the guarantee of the
    standard: [optimizeStructure] passes to [optimize], each with
    [max_iter] and each once, exactly [k = min(max_n_pts, number of
    candidates)] of the points the features of the frame refer to; no
    candidate left out has a smaller mark than a refined one; every refined
    point is stamped with the id of the frame and every other point is left
    as it was.  With the marks 5, 1, 9, 3 and [max_n_pts = 2] the refined
    points are those marked 1 and 3, in whatever order the features come. *)
Theorem optimizeStructure_selects {Pos}
    (Point_optimize : Z -> Point Pos -> Point Pos)
    (nth_element :
       (PointPtr -> PointPtr -> bool) -> nat -> list PointPtr -> list PointPtr) :
  nth_element_ok (Pos:=Pos) nth_element ->
  (forall (frame : Frame) (max_n_pts : nat) (max_iter : Z)
          (h : gmap nat (Point Pos)),
     NoDup (collect_points (fts_ frame)) ->
     let pts := collect_points (fts_ frame) in
     let k := Nat.min max_n_pts (length pts) in
     let r := optimizeStructure Point_optimize nth_element frame max_n_pts
                max_iter h in
     let visited := optimized r.2 in
     r.2 = (fun p => EvOptimize p max_iter) <$> visited
     /\ length visited = k
     /\ length visited <= max_n_pts
     /\ NoDup visited
     /\ visited ⊆ pts
     /\ (forall p q, p ∈ visited -> q ∈ pts -> q ∉ visited ->
                     (mark h p <= mark h q)%Z)
     /\ (forall p, p ∈ visited ->
           r.1 !! p = refined Point_optimize (id_ frame) max_iter <$> h !! p)
     /\ (forall p, p ∉ visited -> r.1 !! p = h !! p))
  /\ (forall (frame : Frame) (max_iter : Z) (h : gmap nat (Point Pos))
             (p5 p1 p9 p3 : PointPtr),
        collect_points (fts_ frame) ≡ₚ [p5; p1; p9; p3] ->
        mark h p5 = 5%Z -> mark h p1 = 1%Z ->
        mark h p9 = 9%Z -> mark h p3 = 3%Z ->
        optimized (optimizeStructure Point_optimize nth_element frame 2
                     max_iter h).2 ≡ₚ [p1; p3]).
Proof.
  intros Hok. split.
  - intros frame max_n_pts max_iter h Hnd pts k0 r visited.
    subst pts k0.
    destruct (select_points_spec nth_element Hok h frame max_n_pts)
      as (l' & Hperm & Hsel & Hk & Hle).
    set (k := Nat.min max_n_pts (length (collect_points (fts_ frame)))) in *.
    assert (visited = take k l') as Hv.
    { subst visited r. unfold optimizeStructure. simpl.
      rewrite optimized_trace. exact Hsel. }
    assert (NoDup visited) as Hndv.
    { rewrite Hv. apply (sublist_NoDup (take k l') l');
        first [apply sublist_take | by rewrite Hperm]. }
    split; [ | split; [ | split; [ | split; [ | split; [ | split; [ | split]]]]]].
    + subst visited r. unfold optimizeStructure. simpl.
      by rewrite optimized_trace.
    + rewrite Hv. by apply length_take_le.
    + rewrite Hv. rewrite length_take_le; [subst k; lia | done].
    + exact Hndv.
    + rewrite Hv. intros x Hx. rewrite <- Hperm.
      by apply (subseteq_take k l').
    + intros p q Hp Hq Hnq. apply Hle; [by rewrite <- Hv | ].
      rewrite <- Hperm, <- (take_drop k l') in Hq.
      apply elem_of_app in Hq as [Hq | Hq]; [ | done].
      exfalso. apply Hnq. by rewrite Hv.
    + intros p Hp. subst r. unfold optimizeStructure. simpl.
      rewrite Hsel, <- Hv.
      by apply refine_points_visited.
    + intros p Hp. subst r. unfold optimizeStructure. simpl.
      rewrite Hsel, <- Hv.
      by apply refine_points_other.
  - intros frame max_iter h p5 p1 p9 p3 Hpts H5 H1 H9 H3.
    destruct (select_points_spec nth_element Hok h frame 2)
      as (l' & Hperm & Hsel & Hk & Hle).
    unfold optimizeStructure. simpl. rewrite optimized_trace, Hsel.
    rewrite Hpts in Hperm.
    apply Permutation_length in Hpts. simpl in Hpts.
    rewrite Hpts in Hk, Hle |- *. simpl in Hk, Hle |- *.
    assert (filter (fun x => (mark h x < 4)%Z) l' ≡ₚ [p1; p3]) as Hf.
    { rewrite Hperm. rewrite !filter_cons, filter_nil.
      rewrite H5, H1, H9, H3. reflexivity. }
    rewrite <- Hf. 
    rewrite (take_smallest_below (mark h) 4 2 l'); [done | done | exact Hle | ].
    by rewrite Hf.
Qed.

Lemma optimizeStructure_selects_witness :
  let h : gmap nat (Point Z) :=
    list_to_map [(10, mkPoint 0%Z 5%Z); (11, mkPoint 0%Z 1%Z);
                 (12, mkPoint 0%Z 9%Z); (13, mkPoint 0%Z 3%Z)] in
  let frame :=
    mkFrame 42 [mkFeature (Some 10); mkFeature None; mkFeature (Some 11);
                mkFeature (Some 12); mkFeature (Some 13)] in
  let r := optimizeStructure optimize_count nth_element_sort frame 2 7 h in
  NoDup (collect_points (fts_ frame))
  /\ length (optimized r.2) = 2
  /\ NoDup (optimized r.2)
  /\ optimized r.2 ≡ₚ [11; 13].
Proof.
  intros h frame r.
  assert (NoDup (collect_points (fts_ frame))) as Hnd.
  { apply (bool_decide_unpack _). vm_compute. exact I. }
  destruct (optimizeStructure_selects optimize_count nth_element_sort
              nth_element_sort_ok) as [Hgen Hex].
  destruct (Hgen frame 2 7%Z h Hnd) as (_ & Hlen & _ & Hnd' & _).
  split; [exact Hnd | ]. split; [exact Hlen | ]. split; [exact Hnd' | ].
  apply (Hex frame 7%Z h 10 11 12 13); reflexivity.
Defined.

(** C8 as stated fails when two features of the frame refer to the same
    point: the point is a single candidate, yet it is passed to [optimize]
    twice. *)
Lemma optimizeStructure_selects_counterexample :
  let h : gmap nat (Point Z) := {[ 1 := mkPoint 0%Z 5%Z ]} in
  let frame := mkFrame 42 [mkFeature (Some 1); mkFeature (Some 1)] in
  let r := optimizeStructure optimize_count nth_element_sort frame 2 7 h in
  r.2 = [EvOptimize 1 7; EvOptimize 1 7]
  /\ ~ NoDup (optimized r.2)
  /\ size (list_to_set (collect_points (fts_ frame)) : gset nat) = 1
  /\ length (optimized r.2) = 2
  /\ r.1 !! 1 = Some (mkPoint 14%Z 42%Z).
Proof.
  intros h frame r.
  assert (r.2 = [EvOptimize 1 7; EvOptimize 1 7]) as Htr
    by (vm_compute; reflexivity).
  split; [exact Htr | ]. rewrite Htr.
  split; [ | split; [ | split]].
  - intros Hnd. apply NoDup_cons in Hnd as [Hin _].
    apply Hin. left.
  - vm_compute. reflexivity.
  - reflexivity.
  - vm_compute. reflexivity.
Qed.

(** * Further properties of the controller *)

Lemma count_events_app (f : Event -> bool) (t1 t2 : list Event) :
  count_events f (t1 ++ t2) = count_events f t1 + count_events f t2.
Proof. unfold count_events. by rewrite List.filter_app, length_app. Qed.

Lemma exec_all_cons cfg c cs s :
  exec_all cfg (c :: cs) s = exec_all cfg cs (exec cfg c s).
Proof. reflexivity. Qed.

(** The quality [setTrackingQuality] assigns, for every input. *)
Lemma setTrackingQuality_run_state cfg n s :
  FH.state (setTrackingQuality cfg n s)
  = set_tracking_quality
      (if (n <? qualityMinFts cfg)%Z then TRACKING_INSUFFICIENT
       else if (feature_drop cfg (num_obs_last_ s) n
                >? qualityMaxFtsDrop cfg)%Z
            then TRACKING_INSUFFICIENT else TRACKING_GOOD) s.
Proof.
  fh_run.
  destruct (n <? qualityMinFts cfg)%Z; simpl;
    destruct (feature_drop cfg (num_obs_last_ s) n >? qualityMaxFtsDrop cfg)%Z;
    reflexivity.
Qed.

Lemma setTrackingQuality_no_map_call cfg n s :
  count_events is_mapReset (FH.trace (setTrackingQuality cfg n s)) = 0
  /\ count_events is_emptyTrash (FH.trace (setTrackingQuality cfg n s)) = 0.
Proof.
  fh_run.
  destruct (n <? qualityMinFts cfg)%Z; simpl;
    destruct (feature_drop cfg (num_obs_last_ s) n >? qualityMaxFtsDrop cfg)%Z;
    split; reflexivity.
Qed.

(** The stage after one call, by cases. *)
Lemma exec_stage_cases cfg c s :
  stage_ (exec cfg c s) = stage_ s
  \/ stage_ (exec cfg c s) = STAGE_PAUSED
  \/ stage_ (exec cfg c s) = STAGE_FIRST_FRAME
  \/ (stage_ (exec cfg c s) = STAGE_RELOCALIZING
      /\ (stage_ s = STAGE_DEFAULT_FRAME \/ stage_ s = STAGE_RELOCALIZING)).
Proof.
  destruct c as [ts | u r n | | | | n]; simpl.
  - destruct s as [st rr [] nn tq m]; destruct st; simpl; auto.
  - destruct s as [st [] ss nn tq m]; destruct st, r; simpl; auto 6.
  - auto.
  - auto.
  - auto.
  - rewrite setTrackingQuality_stage. auto.
Qed.

(** X1. The request flags are consumed by the call that serves them:
    [set_start_] is clear after every [startFrameProcessingCommon], and
    [set_reset_] is clear after every [finishFrameProcessingCommon]. *)
Theorem request_flags_consumed (timestamp : double) (update_id n : Z)
    (dropout : UpdateResult) (s : FrameHandlerBase) :
  set_start_ (FH.state (startFrameProcessingCommon timestamp s)) = false
  /\ set_reset_ (FH.state (finishFrameProcessingCommon update_id dropout n s))
     = false.
Proof.
  split.
  - destruct s as [st rr [] nn tq m]; destruct st; reflexivity.
  - destruct s as [st [] ss nn tq m]; destruct st, dropout; reflexivity.
Qed.

(** X2. What becomes of a start request across
    [finishFrameProcessingCommon]: it is raised by a failure outside the
    tracking stages; otherwise it is dropped when a reset request is
    pending, and kept as it was when none is. *)
Theorem finish_start_request_fate (update_id n : Z) (dropout : UpdateResult)
    (s : FrameHandlerBase) :
  set_start_ (FH.state (finishFrameProcessingCommon update_id dropout n s))
  = (if hard_failure s dropout then true
     else if set_reset_ s then false
     else set_start_ s).
Proof.
  destruct s as [st [] ss nn tq m]; destruct st, dropout; reflexivity.
Qed.

(** X3. A reset request is honoured by the next
    [finishFrameProcessingCommon] whatever the result and the stage: the
    call ends Paused with the map reset exactly once, the count at 0 and the
    quality Insufficient. *)
Theorem reset_request_honored (update_id n : Z) (dropout : UpdateResult)
    (s : FrameHandlerBase) :
  let r := finishFrameProcessingCommon update_id dropout n
             (FH.state (reset s)) in
  stage_ (FH.state r) = STAGE_PAUSED
  /\ set_reset_ (FH.state r) = false
  /\ num_obs_last_ (FH.state r) = 0%Z
  /\ tracking_quality_ (FH.state r) = TRACKING_INSUFFICIENT
  /\ map_ (FH.state r) = Map.reset (map_ s)
  /\ count_events is_mapReset (FH.trace r) = 1.
Proof.
  destruct s as [st rr ss nn tq m]; destruct st, dropout; repeat split.
Qed.

(** X4. A failure reported while Paused wakes the handler: the start flag
    is raised, so the next [startFrameProcessingCommon] returns [true] in
    stage FirstFrame although no start was requested. *)
Theorem failure_while_paused_starts (update_id n : Z) (timestamp : double)
    (s : FrameHandlerBase) :
  stage_ s = STAGE_PAUSED ->
  let r := finishFrameProcessingCommon update_id RESULT_FAILURE n s in
  let r' := startFrameProcessingCommon timestamp (FH.state r) in
  stage_ (FH.state r) = STAGE_PAUSED
  /\ set_start_ (FH.state r) = true
  /\ FH.result r' = true
  /\ stage_ (FH.state r') = STAGE_FIRST_FRAME.
Proof.
  intros Hst.
  rewrite finish_hard_failure_run by (rewrite Hst; discriminate).
  repeat split.
Qed.

Lemma failure_while_paused_starts_witness :
  let s := FrameHandlerBase_init (Map.mk [1] [2] [3]) in
  let r := finishFrameProcessingCommon 0 RESULT_FAILURE 0 s in
  set_start_ s = false
  /\ FH.result (startFrameProcessingCommon (mk_double 0) (FH.state r)) = true.
Proof.
  split; [reflexivity | ].
  exact (proj1 (proj2 (proj2 (failure_while_paused_starts 0 0 (mk_double 0)
    (FrameHandlerBase_init (Map.mk [1] [2] [3])) eq_refl)))).
Defined.

(** X5. A frame cycle without incident: with no request pending, outside
    Paused and with a result other than Failure, [startFrameProcessingCommon]
    followed by [finishFrameProcessingCommon] changes only the recorded
    count and the trash of the map; the trash is drained once and the map
    is never reset. *)
Theorem frame_cycle_preserves (timestamp : double) (update_id n : Z)
    (dropout : UpdateResult) (s : FrameHandlerBase) :
  set_start_ s = false -> set_reset_ s = false ->
  stage_ s <> STAGE_PAUSED -> dropout <> RESULT_FAILURE ->
  let a := startFrameProcessingCommon timestamp s in
  let b := finishFrameProcessingCommon update_id dropout n (FH.state a) in
  FH.result a = true
  /\ FH.state b
     = set_num_obs_last n (set_map (Map.emptyTrash (map_ s)) s)
  /\ count_events is_emptyTrash (FH.trace a ++ FH.trace b) = 1
  /\ count_events is_mapReset (FH.trace a ++ FH.trace b) = 0.
Proof.
  intros Hs Hr Hp Hd.
  rewrite (start_active_run _ _ Hs Hp). simpl.
  rewrite (finish_plain_run _ _ _ _ Hd) by exact Hr.
  repeat split.
Qed.

Lemma frame_cycle_preserves_witness :
  let s := {| stage_ := STAGE_DEFAULT_FRAME; set_reset_ := false;
              set_start_ := false; num_obs_last_ := 120;
              tracking_quality_ := TRACKING_GOOD;
              map_ := Map.mk [1; 2] [3] [4] |} in
  let a := startFrameProcessingCommon (mk_double 0) s in
  let b := finishFrameProcessingCommon 1 RESULT_KEYFRAME 110 (FH.state a) in
  FH.state b
  = {| stage_ := STAGE_DEFAULT_FRAME; set_reset_ := false;
       set_start_ := false; num_obs_last_ := 110;
       tracking_quality_ := TRACKING_GOOD;
       map_ := Map.mk [1; 2] [3] [] |}.
Proof.
  exact (proj1 (proj2 (frame_cycle_preserves (mk_double 0) 1 110
    RESULT_KEYFRAME
    {| stage_ := STAGE_DEFAULT_FRAME; set_reset_ := false;
       set_start_ := false; num_obs_last_ := 120;
       tracking_quality_ := TRACKING_GOOD;
       map_ := Map.mk [1; 2] [3] [4] |}
    eq_refl eq_refl ltac:(discriminate) ltac:(discriminate)))).
Defined.

(** X6. The harness never enters a tracking stage by itself: along any
    sequence of calls, a run that ends in DefaultFrame started in
    DefaultFrame, and a run that ends in Relocalizing started in DefaultFrame
    or Relocalizing.  From Paused or FirstFrame, the stage stays within
    Paused and FirstFrame. *)
Theorem tracking_stages_not_entered (cfg : Config) (cs : list Call)
    (s : FrameHandlerBase) :
  (stage_ (exec_all cfg cs s) = STAGE_DEFAULT_FRAME ->
   stage_ s = STAGE_DEFAULT_FRAME)
  /\ (stage_ (exec_all cfg cs s) = STAGE_RELOCALIZING ->
      stage_ s = STAGE_DEFAULT_FRAME \/ stage_ s = STAGE_RELOCALIZING).
Proof.
  revert s. induction cs as [| c cs IH]; intros s.
  - simpl. auto.
  - rewrite exec_all_cons. destruct (IH (exec cfg c s)) as [IH1 IH2].
    pose proof (exec_stage_cases cfg c s) as Hc.
    split.
    + intros H. specialize (IH1 H).
      destruct Hc as [Hc | [Hc | [Hc | [Hc _]]]]; congruence.
    + intros H. specialize (IH2 H).
      destruct Hc as [Hc | [Hc | [Hc | [_ Hc]]]];
        [ rewrite <- Hc; exact IH2 | | | exact Hc ];
        destruct IH2; congruence.
Qed.

Lemma tracking_stages_not_entered_witness :
  let cfg := mkConfig 50 120 40 in
  let s := {| stage_ := STAGE_DEFAULT_FRAME; set_reset_ := false;
              set_start_ := false; num_obs_last_ := 120;
              tracking_quality_ := TRACKING_GOOD;
              map_ := Map.mk [1; 2] [3] [4] |} in
  (stage_ (exec_all cfg [CallSetTrackingQuality 100] s) = STAGE_DEFAULT_FRAME
   /\ stage_ s = STAGE_DEFAULT_FRAME)
  /\ (stage_ (exec_all cfg [CallFinishFrameProcessing 0 RESULT_FAILURE 10] s)
      = STAGE_RELOCALIZING
      /\ (stage_ s = STAGE_DEFAULT_FRAME \/ stage_ s = STAGE_RELOCALIZING)).
Proof.
  intros cfg s. split.
  - split; [reflexivity | ].
    exact (proj1 (tracking_stages_not_entered cfg
                    [CallSetTrackingQuality 100] s) eq_refl).
  - split; [reflexivity | ].
    exact (proj2 (tracking_stages_not_entered cfg
                    [CallFinishFrameProcessing 0 RESULT_FAILURE 10] s)
             eq_refl).
Defined.

(** One call that does not wake keeps a paused handler paused, accepts no
    frame and does not drain the trash. *)
Lemma paused_step cfg c s :
  stage_ s = STAGE_PAUSED -> set_start_ s = false -> wakes c = false ->
  stage_ (exec cfg c s) = STAGE_PAUSED
  /\ set_start_ (exec cfg c s) = false
  /\ accepted c s = false
  /\ count_events is_emptyTrash (call_trace cfg c s) = 0.
Proof.
  intros Hst Hs Hw.
  destruct c as [ts | u r n | | | | n]; simpl in *.
  - rewrite (start_paused_run _ _ Hs Hst). simpl. auto.
  - destruct s as [st [] ss nn tq m]; simpl in *; subst;
      destruct r; try discriminate Hw; repeat split.
  - repeat split.
  - repeat split; assumption.
  - discriminate Hw.
  - rewrite setTrackingQuality_run_state. simpl.
    destruct (setTrackingQuality_no_map_call cfg n s) as [_ H].
    auto.
Qed.

(** X7. A paused handler stays paused until it is woken: from stage Paused
    with no start request pending, any sequence of calls that contains
    neither a start request nor a reported failure leaves the handler Paused
    with no start pending; every [startFrameProcessingCommon] in it returns
    [false] and the trash is never drained. *)
Theorem paused_until_woken (cfg : Config) (cs : list Call)
    (s : FrameHandlerBase) :
  stage_ s = STAGE_PAUSED -> set_start_ s = false ->
  forallb (fun c => negb (wakes c)) cs = true ->
  stage_ (exec_all cfg cs s) = STAGE_PAUSED
  /\ set_start_ (exec_all cfg cs s) = false
  /\ accepted_frames cfg cs s = 0
  /\ count_events is_emptyTrash (trace_all cfg cs s) = 0.
Proof.
  revert s. induction cs as [| c cs IH]; intros s Hst Hs Hcs.
  - simpl. auto.
  - simpl in Hcs. apply andb_prop in Hcs as [Hw Hcs].
    apply negb_true_iff in Hw.
    destruct (paused_step cfg c s Hst Hs Hw) as (H1 & H2 & H3 & H4).
    destruct (IH (exec cfg c s) H1 H2 Hcs) as (I1 & I2 & I3 & I4).
    rewrite exec_all_cons. simpl.
    rewrite H3, I3, count_events_app, H4, I4. auto.
Qed.

Lemma paused_until_woken_witness :
  let cfg := mkConfig 50 120 40 in
  let s := (constructor (Map.mk [1] [2] [3])).1 in
  let cs := [CallStartFrameProcessing (mk_double 0);
             CallSetTrackingQuality 100;
             CallFinishFrameProcessing 0 RESULT_NORMAL 100;
             CallRequestReset;
             CallStartFrameProcessing (mk_double 1);
             CallFinishFrameProcessing 1 RESULT_KEYFRAME 90;
             CallResetAll] in
  stage_ (exec_all cfg cs s) = STAGE_PAUSED
  /\ accepted_frames cfg cs s = 0.
Proof.
  intros cfg s cs.
  destruct (paused_until_woken cfg cs s eq_refl eq_refl eq_refl)
    as (H1 & _ & H3 & _).
  split; assumption.
Defined.

(** One call drains the trash once if it accepts a frame, and not at all
    otherwise. *)
Lemma emptyTrash_step cfg c s :
  count_events is_emptyTrash (call_trace cfg c s)
  = if accepted c s then 1 else 0.
Proof.
  destruct c as [ts | u r n | | | | n]; simpl.
  - destruct s as [st rr [] nn tq m]; destruct st; reflexivity.
  - destruct s as [st [] ss nn tq m]; destruct st, r; reflexivity.
  - reflexivity.
  - reflexivity.
  - reflexivity.
  - apply setTrackingQuality_no_map_call.
Qed.

(** X8. The trash of the map is drained once per accepted frame and at no
    other time: along any sequence of calls, the number of [emptyTrash]
    calls equals the number of [startFrameProcessingCommon] calls that
    returned [true]. *)
Theorem trash_drained_once_per_frame (cfg : Config) (cs : list Call)
    (s : FrameHandlerBase) :
  count_events is_emptyTrash (trace_all cfg cs s) = accepted_frames cfg cs s.
Proof.
  revert s. induction cs as [| c cs IH]; intros s; [reflexivity | ].
  simpl. rewrite count_events_app, emptyTrash_step, IH. reflexivity.
Qed.

(** * Further properties of the quality gate *)

(** X9. The drop [setTrackingQuality] compares is always a value of [int]
    and differs from the exact difference
    [min(num_obs_last_, maxFts) - num_observations] by a multiple of
    [2^32]. *)
Theorem feature_drop_int (cfg : Config) (last n : Z) :
  (- 2 ^ 31 <= feature_drop cfg last n < 2 ^ 31)%Z
  /\ ((feature_drop cfg last n - (Z.min last (maxFts cfg) - n))
      mod 2 ^ 32 = 0)%Z.
Proof.
  rewrite feature_drop_wrap.
  unfold Int.to_int, Int.int_bits. simpl.
  generalize (Z.min last (maxFts cfg)). intros m.
  split; Z.div_mod_to_equations; lia.
Qed.

(** X10. [setTrackingQuality] writes the quality and nothing else: the
    stage, the request flags, the recorded count and the map are as before
    and the map is not called.  The quality it writes does not depend on the
    quality before, so of two evaluations in a row only the last one
    shows. *)
Theorem setTrackingQuality_only_quality (cfg : Config) (n n' : Z)
    (s : FrameHandlerBase) :
  let s1 := FH.state (setTrackingQuality cfg n s) in
  stage_ s1 = stage_ s
  /\ set_reset_ s1 = set_reset_ s
  /\ set_start_ s1 = set_start_ s
  /\ num_obs_last_ s1 = num_obs_last_ s
  /\ map_ s1 = map_ s
  /\ count_events is_mapReset (FH.trace (setTrackingQuality cfg n s)) = 0
  /\ count_events is_emptyTrash (FH.trace (setTrackingQuality cfg n s)) = 0
  /\ FH.state (setTrackingQuality cfg n' s1)
     = FH.state (setTrackingQuality cfg n' s).
Proof.
  simpl. rewrite !setTrackingQuality_run_state.
  destruct (setTrackingQuality_no_map_call cfg n s) as [H1 H2].
  repeat split; assumption.
Qed.

(** X11. The first evaluation after a reset: with the recorded count at 0
    and a non-negative allowed drop, the drop test cannot fire for any count
    up to [2^31], so the quality is Good exactly when the count reaches
    [qualityMinFts]. *)
Theorem setTrackingQuality_first_evaluation (cfg : Config) (n : Z)
    (s : FrameHandlerBase) :
  num_obs_last_ s = 0%Z ->
  (0 <= n <= 2 ^ 31)%Z ->
  (0 <= maxFts cfg)%Z ->
  (0 <= qualityMaxFtsDrop cfg)%Z ->
  (feature_drop cfg (num_obs_last_ s) n = - n)%Z
  /\ (tracking_quality_ (FH.state (setTrackingQuality cfg n s))
      = TRACKING_GOOD <-> (qualityMinFts cfg <= n)%Z).
Proof.
  intros H0 Hn Hm Hd.
  assert (feature_drop cfg (num_obs_last_ s) n = (- n)%Z) as Hfd.
  { rewrite feature_drop_wrap, H0.
    rewrite Z.min_l by lia.
    unfold Int.to_int, Int.int_bits. simpl.
    Z.div_mod_to_equations. lia. }
  split; [exact Hfd | ].
  rewrite setTrackingQuality_run_state, Hfd. simpl.
  destruct (Z.ltb_spec n (qualityMinFts cfg)).
  - split; [discriminate | lia].
  - destruct (Z.gtb_spec (- n) (qualityMaxFtsDrop cfg)); [lia | ].
    split; [lia | reflexivity].
Qed.

Lemma setTrackingQuality_first_evaluation_witness :
  let cfg := mkConfig 50 120 40 in
  let s := FrameHandlerBase_init (Map.mk [] [] []) in
  tracking_quality_ (FH.state (setTrackingQuality cfg 2147483648 s))
  = TRACKING_GOOD.
Proof.
  apply (setTrackingQuality_first_evaluation (mkConfig 50 120 40) 2147483648
           (FrameHandlerBase_init (Map.mk [] [] []))); simpl;
    first [reflexivity | lia].
Defined.

(** X12. Within the range of [int] the gate is monotone: if the quality is
    Good for a count and a recorded count, it is Good for every larger count
    and every smaller recorded count. *)
Theorem setTrackingQuality_monotone (cfg : Config) (n n' : Z)
    (s s' : FrameHandlerBase) :
  (0 <= n <= n')%Z -> (n' < 2 ^ 31)%Z ->
  (0 <= num_obs_last_ s' <= num_obs_last_ s)%Z ->
  (num_obs_last_ s < 2 ^ 31)%Z ->
  (0 <= maxFts cfg)%Z ->
  tracking_quality_ (FH.state (setTrackingQuality cfg n s)) = TRACKING_GOOD ->
  tracking_quality_ (FH.state (setTrackingQuality cfg n' s')) = TRACKING_GOOD.
Proof.
  intros Hn Hn' Hl Hl' Hm.
  rewrite !setTrackingQuality_run_state. simpl.
  rewrite !feature_drop_exact by lia.
  destruct (Z.ltb_spec n (qualityMinFts cfg)); [discriminate | ].
  destruct (Z.gtb_spec (Z.min (num_obs_last_ s) (maxFts cfg) - n)
              (qualityMaxFtsDrop cfg)); [discriminate | ].
  intros _.
  destruct (Z.ltb_spec n' (qualityMinFts cfg)); [lia | ].
  destruct (Z.gtb_spec (Z.min (num_obs_last_ s') (maxFts cfg) - n')
              (qualityMaxFtsDrop cfg)); [lia | reflexivity].
Qed.

Lemma setTrackingQuality_monotone_witness :
  let cfg := mkConfig 50 120 40 in
  let s := set_num_obs_last 110 (FrameHandlerBase_init (Map.mk [] [] [])) in
  let s' := set_num_obs_last 100 (FrameHandlerBase_init (Map.mk [] [] [])) in
  tracking_quality_ (FH.state (setTrackingQuality cfg 90 s')) = TRACKING_GOOD.
Proof.
  apply (setTrackingQuality_monotone (mkConfig 50 120 40) 70 90
           (set_num_obs_last 110 (FrameHandlerBase_init (Map.mk [] [] [])))
           (set_num_obs_last 100 (FrameHandlerBase_init (Map.mk [] [] []))));
    simpl; first [reflexivity | lia].
Defined.

(** * Further properties of the structure optimizer *)

(** X13. [ptLastOptimComparator] is a strict weak ordering, as
    [std::nth_element] requires of its comparator: it is irreflexive and
    transitive, and not comparing less either way is transitive too. *)
Theorem ptLastOptimComparator_strict_weak {Pos} (h : gmap nat (Point Pos)) :
  (forall x, ptLastOptimComparator h x x = false)
  /\ (forall x y z,
        ptLastOptimComparator h x y = true ->
        ptLastOptimComparator h y z = true ->
        ptLastOptimComparator h x z = true)
  /\ (forall x y z,
        ptLastOptimComparator h x y = false ->
        ptLastOptimComparator h y x = false ->
        ptLastOptimComparator h y z = false ->
        ptLastOptimComparator h z y = false ->
        ptLastOptimComparator h x z = false
        /\ ptLastOptimComparator h z x = false).
Proof.
  unfold ptLastOptimComparator.
  split; [ | split].
  - intros x. apply Z.ltb_irrefl.
  - intros x y z. rewrite !Z.ltb_lt. lia.
  - intros x y z. rewrite !Z.ltb_ge. lia.
Qed.

Lemma ptLastOptimComparator_strict_weak_witness :
  let h : gmap nat (Point Z) :=
    list_to_map [(10, mkPoint 0%Z 5%Z); (11, mkPoint 0%Z 1%Z);
                 (12, mkPoint 0%Z 9%Z)] in
  ptLastOptimComparator h 11 12 = true.
Proof.
  intros h.
  exact (proj1 (proj2 (ptLastOptimComparator_strict_weak h)) 11 10 12
           eq_refl eq_refl).
Defined.

Lemma optimized_run {Pos} (Point_optimize : Z -> Point Pos -> Point Pos)
    nth_element frame max_n_pts max_iter (h : gmap nat (Point Pos)) :
  optimized (optimizeStructure Point_optimize nth_element frame max_n_pts
               max_iter h).2
  = select_points nth_element h frame max_n_pts.
Proof. unfold optimizeStructure. simpl. apply optimized_trace. Qed.

(** The second loop neither creates nor drops a point. *)
Lemma refine_points_dom {Pos} (Point_optimize : Z -> Point Pos -> Point Pos)
    frame_id max_iter (l : list PointPtr) (h : gmap nat (Point Pos)) :
  dom (foldl (refine_point Point_optimize frame_id max_iter) h l) = dom h.
Proof.
  revert h. induction l as [| q l IH]; intros h; [done | ].
  simpl. rewrite IH. unfold refine_point. apply dom_alter_L.
Qed.

(** A visited point carries the stamp, however often it was visited. *)
Lemma refine_points_stamped {Pos}
    (Point_optimize : Z -> Point Pos -> Point Pos)
    frame_id max_iter (l : list PointPtr) (h : gmap nat (Point Pos))
    (p : PointPtr) (pt : Point Pos) :
  p ∈ l ->
  foldl (refine_point Point_optimize frame_id max_iter) h l !! p = Some pt ->
  last_structure_optim_ pt = frame_id.
Proof.
  revert h. induction l as [| q l IH]; intros h Hp Hl.
  - by apply elem_of_nil in Hp.
  - simpl in Hl. destruct (decide (p ∈ l)) as [Hin | Hnin].
    + exact (IH _ Hin Hl).
    + apply elem_of_cons in Hp as [-> | Hp]; [ | done].
      rewrite refine_points_other in Hl by done.
      unfold refine_point in Hl. rewrite lookup_alter_eq in Hl.
      destruct (h !! q) as [pt0 |]; simpl in Hl; [ | discriminate].
      by inversion Hl.
Qed.

(** X14. For every frame, also one whose features share points:
    [optimizeStructure] calls [optimize] exactly
    [min(max_n_pts, number of candidates)] times, on no point more often
    than features of the frame refer to it; it leaves every other point as
    it was, neither creates nor drops a point, and every point it visited
    ends stamped with the id of the frame. *)
Theorem optimizeStructure_bounded {Pos}
    (Point_optimize : Z -> Point Pos -> Point Pos)
    (nth_element :
       (PointPtr -> PointPtr -> bool) -> nat -> list PointPtr -> list PointPtr)
    (frame : Frame) (max_n_pts : nat) (max_iter : Z)
    (h : gmap nat (Point Pos)) :
  nth_element_ok (Pos:=Pos) nth_element ->
  let pts := collect_points (fts_ frame) in
  let r := optimizeStructure Point_optimize nth_element frame max_n_pts
             max_iter h in
  let visited := optimized r.2 in
  length visited = Nat.min max_n_pts (length pts)
  /\ visited ⊆+ pts
  /\ (forall p, p ∉ visited -> r.1 !! p = h !! p)
  /\ dom r.1 = dom h
  /\ (forall p pt, p ∈ visited -> r.1 !! p = Some pt ->
                   last_structure_optim_ pt = id_ frame).
Proof.
  intros Hok pts r visited.
  destruct (select_points_spec nth_element Hok h frame max_n_pts)
    as (l' & Hperm & Hsel & Hk & _).
  assert (visited = select_points nth_element h frame max_n_pts) as Hv
    by apply optimized_run.
  split; [ | split; [ | split; [ | split]]].
  - rewrite Hv, Hsel. by apply length_take_le.
  - rewrite Hv, Hsel. trans l'.
    + apply sublist_submseteq, sublist_take.
    + by apply Permutation_submseteq.
  - intros p Hp. subst r. unfold optimizeStructure. simpl.
    apply refine_points_other. by rewrite <- Hv.
  - subst r. unfold optimizeStructure. simpl. apply refine_points_dom.
  - intros p pt Hp Hl. subst r. unfold optimizeStructure in Hl. simpl in Hl.
    eapply refine_points_stamped; [ | exact Hl]. by rewrite <- Hv.
Qed.

Lemma optimizeStructure_bounded_witness :
  let h : gmap nat (Point Z) :=
    list_to_map [(1, mkPoint 0%Z 5%Z); (2, mkPoint 0%Z 1%Z)] in
  let frame :=
    mkFrame 42 [mkFeature (Some 1); mkFeature (Some 1); mkFeature (Some 2)] in
  let r := optimizeStructure optimize_count nth_element_sort frame 2 7 h in
  length (optimized r.2) = 2 /\ dom r.1 = dom h.
Proof.
  intros h frame r.
  destruct (optimizeStructure_bounded optimize_count nth_element_sort
              frame 2 7%Z h nth_element_sort_ok) as (H1 & _ & _ & H4 & _).
  split; [exact H1 | exact H4].
Defined.

(** X15. Nothing to do: with [max_n_pts = 0], or with a frame none of whose
    features has a point, [optimizeStructure] makes no call and leaves the
    heap as it is, whatever [nth_element] does. *)
Theorem optimizeStructure_nothing {Pos}
    (Point_optimize : Z -> Point Pos -> Point Pos)
    (nth_element :
       (PointPtr -> PointPtr -> bool) -> nat -> list PointPtr -> list PointPtr)
    (frame : Frame) (max_n_pts : nat) (max_iter : Z)
    (h : gmap nat (Point Pos)) :
  max_n_pts = 0 \/ Forall (fun ft => point ft = None) (fts_ frame) ->
  optimizeStructure Point_optimize nth_element frame max_n_pts max_iter h
  = (h, []).
Proof.
  intros Hz.
  assert (Nat.min max_n_pts (length (collect_points (fts_ frame))) = 0) as H0.
  { destruct Hz as [-> | Hall]; [reflexivity | ].
    assert (collect_points (fts_ frame) = []) as ->;
      [ | apply Nat.min_0_r].
    unfold collect_points.
    induction Hall as [| ft l Hft _ IH]; [done | ].
    simpl. rewrite Hft. exact IH. }
  unfold optimizeStructure, select_points. rewrite H0. reflexivity.
Qed.

Lemma optimizeStructure_nothing_witness :
  let h : gmap nat (Point Z) := {[ 1 := mkPoint 0%Z 5%Z ]} in
  optimizeStructure optimize_count nth_element_sort
    (mkFrame 42 [mkFeature None; mkFeature None]) 3 7 h = (h, [])
  /\ optimizeStructure optimize_count nth_element_sort
       (mkFrame 42 [mkFeature (Some 1)]) 0 7 h = (h, []).
Proof.
  intros h. split.
  - apply optimizeStructure_nothing. right. repeat constructor.
  - apply optimizeStructure_nothing. left. reflexivity.
Defined.

(** X16. A cap that covers the candidates: when [max_n_pts] is at least the
    number of candidates, every candidate is passed to [optimize], as often
    as features refer to it, and every candidate that is in the heap ends
    marked with the id of the frame. *)
Theorem optimizeStructure_all {Pos}
    (Point_optimize : Z -> Point Pos -> Point Pos)
    (nth_element :
       (PointPtr -> PointPtr -> bool) -> nat -> list PointPtr -> list PointPtr)
    (frame : Frame) (max_n_pts : nat) (max_iter : Z)
    (h : gmap nat (Point Pos)) :
  nth_element_ok (Pos:=Pos) nth_element ->
  length (collect_points (fts_ frame)) <= max_n_pts ->
  let r := optimizeStructure Point_optimize nth_element frame max_n_pts
             max_iter h in
  optimized r.2 ≡ₚ collect_points (fts_ frame)
  /\ (forall p, p ∈ collect_points (fts_ frame) -> is_Some (h !! p) ->
                mark r.1 p = id_ frame).
Proof.
  intros Hok Hcap r.
  destruct (select_points_spec nth_element Hok h frame max_n_pts)
    as (l' & Hperm & Hsel & Hk & _).
  assert (optimized r.2 ≡ₚ collect_points (fts_ frame)) as Hall.
  { subst r. rewrite optimized_run, Hsel.
    rewrite take_ge; [exact Hperm | ]. rewrite Hperm. lia. }
  split; [exact Hall | ].
  intros p Hp [pt0 Hpt0].
  assert (is_Some (r.1 !! p)) as [pt Hpt].
  { apply elem_of_dom. subst r. unfold optimizeStructure. simpl.
    rewrite refine_points_dom. apply elem_of_dom. eauto. }
  unfold mark. rewrite Hpt. simpl.
  subst r. unfold optimizeStructure in Hpt. simpl in Hpt.
  eapply refine_points_stamped; [ | exact Hpt].
  rewrite <- (optimized_run Point_optimize nth_element frame max_n_pts
                max_iter h).
  by rewrite Hall.
Qed.

Lemma optimizeStructure_all_witness :
  let h : gmap nat (Point Z) :=
    list_to_map [(1, mkPoint 0%Z 5%Z); (2, mkPoint 0%Z 1%Z)] in
  let frame := mkFrame 42 [mkFeature (Some 1); mkFeature (Some 2)] in
  let r := optimizeStructure optimize_count nth_element_sort frame 5 7 h in
  optimized r.2 ≡ₚ [1; 2] /\ mark r.1 1 = 42%Z.
Proof.
  intros h frame r.
  destruct (optimizeStructure_all optimize_count nth_element_sort frame 5
              7%Z h nth_element_sort_ok ltac:(simpl; lia)) as [H1 H2].
  split; [exact H1 | ].
  apply H2; [left | ]. vm_compute. eauto.
Defined.

(** With pairwise distinct keys there is one set of [k] smallest: whatever
    is selected from one arrangement is selected from any other. *)
Lemma smallest_incl {A} `{EqDecision A} (key : A -> Z) (k : nat)
    (l1 l2 : list A) :
  NoDup l1 -> l1 ≡ₚ l2 -> k <= length l1 ->
  (forall x y, x ∈ l1 -> y ∈ l1 -> key x = key y -> x = y) ->
  (forall x y, x ∈ take k l1 -> y ∈ drop k l1 -> (key x <= key y)%Z) ->
  (forall x y, x ∈ take k l2 -> y ∈ drop k l2 -> (key x <= key y)%Z) ->
  forall x, x ∈ take k l1 -> x ∈ take k l2.
Proof.
  intros Hnd Hperm Hk Hinj Hle1 Hle2 x Hx.
  destruct (decide (x ∈ take k l2)) as [Hin | Hnin]; [exact Hin | exfalso].
  assert (NoDup l2) as Hnd2 by (by rewrite <- Hperm).
  assert (NoDup (take k l1)) as Hv1
    by (apply (sublist_NoDup (take k l1) l1);
        first [apply sublist_take | done]).
  assert (NoDup (take k l2)) as Hv2
    by (apply (sublist_NoDup (take k l2) l2);
        first [apply sublist_take | done]).
  assert (length (take k l1) = length (take k l2)) as Hlen.
  { rewrite !length_take_le; [done | | done].
    apply Permutation_length in Hperm. lia. }
  assert (x ∈ l1) as Hxl1 by (by apply (subseteq_take k l1)).
  assert (x ∈ drop k l2) as Hxr2.
  { assert (x ∈ l2) as Hxl2 by (by rewrite <- Hperm).
    rewrite <- (take_drop k l2) in Hxl2.
    apply elem_of_app in Hxl2 as [? | ?]; done. }
  destruct (decide (Forall (fun y => y ∈ take k l1) (take k l2)))
    as [Hall | Hnall].
  - apply Hnin.
    assert (take k l2 ≡ₚ take k l1) as ->; [ | exact Hx].
    apply submseteq_length_Permutation; [ | lia].
    apply NoDup_submseteq; [exact Hv2 | ].
    by apply Forall_forall.
  - apply not_Forall_Exists in Hnall; [ | apply _].
    apply Exists_exists in Hnall as (y & Hy2 & Hy1).
    simpl in Hy1.
    assert (y ∈ l1) as Hyl1
      by (rewrite Hperm; by apply (subseteq_take k l2)).
    assert (y ∈ drop k l1) as Hyr1.
    { pose proof Hyl1 as Hyl. rewrite <- (take_drop k l1) in Hyl.
      apply elem_of_app in Hyl as [? | ?]; done. }
    pose proof (Hle1 x y Hx Hyr1). pose proof (Hle2 y x Hy2 Hxr2).
    assert (x = y) as -> by (apply Hinj; [done | done | lia]).
    done.
Qed.

Lemma smallest_unique {A} `{EqDecision A} (key : A -> Z) (k : nat)
    (l1 l2 : list A) :
  NoDup l1 -> l1 ≡ₚ l2 -> k <= length l1 ->
  (forall x y, x ∈ l1 -> y ∈ l1 -> key x = key y -> x = y) ->
  (forall x y, x ∈ take k l1 -> y ∈ drop k l1 -> (key x <= key y)%Z) ->
  (forall x y, x ∈ take k l2 -> y ∈ drop k l2 -> (key x <= key y)%Z) ->
  take k l1 ≡ₚ take k l2.
Proof.
  intros Hnd Hperm Hk Hinj Hle1 Hle2.
  apply submseteq_length_Permutation.
  - apply NoDup_submseteq.
    + apply (sublist_NoDup (take k l1) l1);
        first [apply sublist_take | done].
    + by apply smallest_incl with key.
  - rewrite !length_take_le; [done | done | ].
    apply Permutation_length in Hperm. lia.
Qed.

(** X17. Without ties the outcome is determined: when the candidates of a
    frame are pairwise distinct points with pairwise distinct marks, the
    points refined and the heap afterwards are the same for every
    [nth_element] that meets the guarantee of the standard and for every
    order of the features. *)
Theorem optimizeStructure_determined {Pos}
    (Point_optimize : Z -> Point Pos -> Point Pos)
    (ne1 ne2 :
       (PointPtr -> PointPtr -> bool) -> nat -> list PointPtr -> list PointPtr)
    (frame1 frame2 : Frame) (max_n_pts : nat) (max_iter : Z)
    (h : gmap nat (Point Pos)) :
  nth_element_ok (Pos:=Pos) ne1 -> nth_element_ok (Pos:=Pos) ne2 ->
  NoDup (collect_points (fts_ frame1)) ->
  collect_points (fts_ frame2) ≡ₚ collect_points (fts_ frame1) ->
  id_ frame2 = id_ frame1 ->
  (forall p q, p ∈ collect_points (fts_ frame1) ->
               q ∈ collect_points (fts_ frame1) ->
               mark h p = mark h q -> p = q) ->
  let r1 := optimizeStructure Point_optimize ne1 frame1 max_n_pts max_iter h in
  let r2 := optimizeStructure Point_optimize ne2 frame2 max_n_pts max_iter h in
  optimized r1.2 ≡ₚ optimized r2.2 /\ r1.1 = r2.1.
Proof.
  intros Hok1 Hok2 Hnd Hfts Hid Hinj r1 r2.
  destruct (select_points_spec ne1 Hok1 h frame1 max_n_pts)
    as (l1 & Hp1 & Hs1 & Hk1 & Hle1).
  destruct (select_points_spec ne2 Hok2 h frame2 max_n_pts)
    as (l2 & Hp2 & Hs2 & Hk2 & Hle2).
  rewrite (Permutation_length Hfts) in Hs2, Hk2, Hle2.
  set (k := Nat.min max_n_pts (length (collect_points (fts_ frame1)))) in *.
  assert (l1 ≡ₚ l2) as Hperm by (by rewrite Hp1, Hp2, Hfts).
  assert (NoDup l1) as Hnd1 by (by rewrite Hp1).
  assert (NoDup l2) as Hnd2 by (by rewrite <- Hperm).
  assert (take k l1 ≡ₚ take k l2) as Hsame.
  { apply (smallest_unique (mark h)); try done.
    intros x y Hx Hy. apply Hinj; by rewrite <- Hp1. }
  assert (optimized r1.2 = take k l1) as Hv1
    by (subst r1; by rewrite optimized_run).
  assert (optimized r2.2 = take k l2) as Hv2
    by (subst r2; by rewrite optimized_run).
  split; [by rewrite Hv1, Hv2 | ].
  subst r1 r2. unfold optimizeStructure. simpl.
  rewrite Hs1, Hs2, Hid.
  assert (NoDup (take k l1)) as Hn1
    by (apply (sublist_NoDup (take k l1) l1);
        first [apply sublist_take | done]).
  assert (NoDup (take k l2)) as Hn2
    by (apply (sublist_NoDup (take k l2) l2);
        first [apply sublist_take | done]).
  apply map_eq. intros p.
  destruct (decide (p ∈ take k l1)) as [Hin | Hnin].
  - rewrite !refine_points_visited; try done. by rewrite <- Hsame.
  - rewrite !refine_points_other; try done. by rewrite <- Hsame.
Qed.

Lemma optimizeStructure_determined_witness :
  let h : gmap nat (Point Z) :=
    list_to_map [(10, mkPoint 0%Z 5%Z); (11, mkPoint 0%Z 1%Z);
                 (12, mkPoint 0%Z 9%Z); (13, mkPoint 0%Z 3%Z)] in
  let frame1 :=
    mkFrame 42 [mkFeature (Some 10); mkFeature (Some 11);
                mkFeature (Some 12); mkFeature (Some 13)] in
  let frame2 :=
    mkFrame 42 [mkFeature (Some 13); mkFeature None; mkFeature (Some 12);
                mkFeature (Some 11); mkFeature (Some 10)] in
  (optimizeStructure optimize_count nth_element_sort frame1 2 7 h).1
  = (optimizeStructure optimize_count nth_element_sort frame2 2 7 h).1.
Proof.
  intros h frame1 frame2.
  refine (proj2 (optimizeStructure_determined optimize_count
                   nth_element_sort nth_element_sort frame1 frame2 2 7%Z h
                   nth_element_sort_ok nth_element_sort_ok _ _ eq_refl _)).
  - apply (bool_decide_unpack _). vm_compute. exact I.
  - apply (bool_decide_unpack _). vm_compute. exact I.
  - intros p q Hp Hq.
    apply list_elem_of_In in Hp, Hq. simpl in Hp, Hq.
    destruct Hp as [<- | [<- | [<- | [<- | []]]]];
      destruct Hq as [<- | [<- | [<- | [<- | []]]]];
      vm_compute; intros Hm; first [reflexivity | discriminate Hm].
Defined.

(** X18. Rotation: when the candidates are pairwise distinct points of the
    heap, all marked before the id of the first frame, and the cap is at
    most half their number, a second run over the same candidates refines
    none of the points the first run refined; together the two runs refine
    [2 * max_n_pts] distinct points. *)
Theorem optimizeStructure_rotation {Pos}
    (Point_optimize : Z -> Point Pos -> Point Pos)
    (nth_element :
       (PointPtr -> PointPtr -> bool) -> nat -> list PointPtr -> list PointPtr)
    (frame1 frame2 : Frame) (max_n_pts : nat) (max_iter1 max_iter2 : Z)
    (h : gmap nat (Point Pos)) :
  nth_element_ok (Pos:=Pos) nth_element ->
  NoDup (collect_points (fts_ frame1)) ->
  collect_points (fts_ frame2) ≡ₚ collect_points (fts_ frame1) ->
  (forall p, p ∈ collect_points (fts_ frame1) ->
             is_Some (h !! p) /\ (mark h p < id_ frame1)%Z) ->
  2 * max_n_pts <= length (collect_points (fts_ frame1)) ->
  let r1 := optimizeStructure Point_optimize nth_element frame1 max_n_pts
              max_iter1 h in
  let r2 := optimizeStructure Point_optimize nth_element frame2 max_n_pts
              max_iter2 r1.1 in
  (forall p, p ∈ optimized r1.2 -> p ∉ optimized r2.2)
  /\ NoDup (optimized r1.2 ++ optimized r2.2)
  /\ length (optimized r1.2 ++ optimized r2.2) = 2 * max_n_pts.
Proof.
  intros Hok Hnd Hfts Hvalid Hcap r1 r2.
  set (pts := collect_points (fts_ frame1)) in *.
  destruct (select_points_spec nth_element Hok h frame1 max_n_pts)
    as (l1 & Hp1 & Hs1 & Hk1 & _).
  destruct (select_points_spec nth_element Hok r1.1 frame2 max_n_pts)
    as (l2 & Hp2 & Hs2 & Hk2 & Hle2).
  rewrite (Permutation_length Hfts) in Hs2, Hk2, Hle2.
  fold pts in Hp1, Hs1, Hk1, Hs2, Hk2, Hle2.
  rewrite Nat.min_l in Hs1, Hk1, Hs2, Hk2, Hle2 by lia.
  set (k := max_n_pts) in *.
  assert (optimized r1.2 = take k l1) as Hv1
    by (subst r1; by rewrite optimized_run).
  assert (optimized r2.2 = take k l2) as Hv2
    by (subst r2; by rewrite optimized_run).
  assert (NoDup l1) as Hnd1 by (by rewrite Hp1).
  assert (NoDup l2) as Hnd2 by (by rewrite Hp2, Hfts).
  pose proof Hnd1 as Hsplit. rewrite <- (take_drop k l1) in Hsplit.
  apply NoDup_app in Hsplit as (Hn1 & Hdisj & Hnr1).
  assert (NoDup (take k l2)) as Hn2
    by (apply (sublist_NoDup (take k l2) l2);
        first [apply sublist_take | done]).
  assert (length l1 = length pts) as Hlen1 by (by rewrite Hp1).
  assert (r1.1 = foldl (refine_point Point_optimize (id_ frame1) max_iter1)
                   h (take k l1)) as Hh1.
  { subst r1. unfold optimizeStructure. simpl. by rewrite Hs1. }
  assert (forall p, p ∈ take k l1 -> p ∉ take k l2) as Hmain.
  { intros p Hp1' Hp2'.
    assert (exists q, q ∈ drop k l1 /\ q ∉ take k l2) as (q & Hq1 & Hq2).
    { destruct (decide (Forall (fun q => q ∈ take k l2) (drop k l1)))
        as [Hall | Hnall].
      - exfalso.
        assert (p :: drop k l1 ⊆+ take k l2) as Hsub.
        { apply NoDup_submseteq.
          - apply NoDup_cons. split; [by apply Hdisj | done].
          - intros x [-> | Hx]%elem_of_cons; [done | ].
            by apply (proj1 (Forall_forall _ _) Hall). }
        apply submseteq_length in Hsub. simpl in Hsub.
        rewrite length_drop, length_take_le in Hsub by done. lia.
      - apply not_Forall_Exists in Hnall; [ | apply _].
        apply Exists_exists in Hnall as (q & Hq1 & Hq2). eauto. }
    assert (q ∈ pts) as Hqpts
      by (rewrite <- Hp1; by apply (subseteq_drop k l1)).
    assert (q ∈ drop k l2) as Hqr2.
    { assert (q ∈ l2) as Hql2 by (by rewrite Hp2, Hfts).
      rewrite <- (take_drop k l2) in Hql2.
      apply elem_of_app in Hql2 as [? | ?]; done. }
    pose proof (Hle2 p q Hp2' Hqr2) as Hle.
    assert (p ∈ pts) as Hppts
      by (rewrite <- Hp1; by apply (subseteq_take k l1)).
    destruct (Hvalid p Hppts) as [[pt0 Hpt0] _].
    destruct (Hvalid q Hqpts) as [_ Hqm].
    assert (mark r1.1 p = id_ frame1) as Hmp.
    { unfold mark. rewrite Hh1, refine_points_visited by done.
      rewrite Hpt0. reflexivity. }
    assert (mark r1.1 q = mark h q) as Hmq.
    { unfold mark. rewrite Hh1, refine_points_other; [done | ].
      intros Hq. exact (Hdisj q Hq Hq1). }
    lia. }
  rewrite Hv1, Hv2.
  split; [exact Hmain | split].
  - apply NoDup_app. auto.
  - rewrite length_app, !length_take_le by done. lia.
Qed.

Lemma optimizeStructure_rotation_witness :
  let h : gmap nat (Point Z) :=
    list_to_map [(10, mkPoint 0%Z 5%Z); (11, mkPoint 0%Z 1%Z);
                 (12, mkPoint 0%Z 9%Z); (13, mkPoint 0%Z 3%Z)] in
  let frame1 :=
    mkFrame 42 [mkFeature (Some 10); mkFeature (Some 11);
                mkFeature (Some 12); mkFeature (Some 13)] in
  let frame2 :=
    mkFrame 43 [mkFeature (Some 10); mkFeature (Some 11);
                mkFeature (Some 12); mkFeature (Some 13)] in
  let r1 := optimizeStructure optimize_count nth_element_sort frame1 2 7 h in
  let r2 :=
    optimizeStructure optimize_count nth_element_sort frame2 2 7 r1.1 in
  NoDup (optimized r1.2 ++ optimized r2.2)
  /\ length (optimized r1.2 ++ optimized r2.2) = 4.
Proof.
  intros h frame1 frame2 r1 r2.
  refine (proj2 (optimizeStructure_rotation optimize_count nth_element_sort
                   frame1 frame2 2 7%Z 7%Z h nth_element_sort_ok _ _ _ _)).
  - apply (bool_decide_unpack _). vm_compute. exact I.
  - reflexivity.
  - intros p Hp. apply list_elem_of_In in Hp. simpl in Hp.
    destruct Hp as [<- | [<- | [<- | [<- | []]]]];
      (split; [vm_compute; eauto | vm_compute; reflexivity]).
  - simpl. lia.
Defined.
